(** * download_incr_DB.py: a shallow embedding and its checked properties

    The script lists the objects of an S3 bucket page by page, downloads
    them through a pool of workers that verify each file against the ETag
    of the store, and sequences a snapshot phase and a state-delta phase
    around an upload lock.

    The functions of the script are embedded as Rocq functions that pass a
    world along: the replies the network is going to give, the local
    files, the current directory and a trace of requests and pauses.  A
    call ends in an [outcome]: a return value, an exception, [exit(n)],
    [os._exit(n)], or the exhaustion of the fuel of a modelled loop.

    What the model leaves out:
    - a [str] is a [string], so its characters are code points below 256;
    - directories are not represented: a path is a key of the file map,
      and [os.makedirs] under the mutex has no effect on it; [open] fails
      for the empty name and for a name ending in a slash, other failures
      of the operating system are not modelled;
    - the worker pool runs its tasks one after the other in the order of
      submission;
    - [print] and the progress bar are dropped;
    - [hashlib.md5] is the digest of RFC 1321, defined below and checked
      on the test suite of the RFC. *)

From Stdlib Require Import ZArith List Strings.String Strings.Ascii Strings.Byte Lia DecimalString.
From stdpp Require Import gmap strings list.

Local Open Scope Z_scope.

(** ** hashlib.md5

    The digest algorithm of RFC 1321 on 32-bit words kept in [Z], every
    addition reduced modulo 2^32. *)
Module MD5.

Definition w32 (x : Z) : Z := x mod 2 ^ 32.

Definition lnot32 (x : Z) : Z := Z.lxor x 0xffffffff.

Definition rotl (x c : Z) : Z :=
  w32 (Z.lor (Z.shiftl x c) (Z.shiftr x (32 - c))).

Definition K : list Z :=
  [ 0xd76aa478; 0xe8c7b756; 0x242070db; 0xc1bdceee;
    0xf57c0faf; 0x4787c62a; 0xa8304613; 0xfd469501;
    0x698098d8; 0x8b44f7af; 0xffff5bb1; 0x895cd7be;
    0x6b901122; 0xfd987193; 0xa679438e; 0x49b40821;
    0xf61e2562; 0xc040b340; 0x265e5a51; 0xe9b6c7aa;
    0xd62f105d; 0x02441453; 0xd8a1e681; 0xe7d3fbc8;
    0x21e1cde6; 0xc33707d6; 0xf4d50d87; 0x455a14ed;
    0xa9e3e905; 0xfcefa3f8; 0x676f02d9; 0x8d2a4c8a;
    0xfffa3942; 0x8771f681; 0x6d9d6122; 0xfde5380c;
    0xa4beea44; 0x4bdecfa9; 0xf6bb4b60; 0xbebfbc70;
    0x289b7ec6; 0xeaa127fa; 0xd4ef3085; 0x04881d05;
    0xd9d4d039; 0xe6db99e5; 0x1fa27cf8; 0xc4ac5665;
    0xf4292244; 0x432aff97; 0xab9423a7; 0xfc93a039;
    0x655b59c3; 0x8f0ccc92; 0xffeff47d; 0x85845dd1;
    0x6fa87e4f; 0xfe2ce6e0; 0xa3014314; 0x4e0811a1;
    0xf7537e82; 0xbd3af235; 0x2ad7d2bb; 0xeb86d391 ].

Definition R : list Z :=
  [ 7; 12; 17; 22; 7; 12; 17; 22; 7; 12; 17; 22; 7; 12; 17; 22;
    5;  9; 14; 20; 5;  9; 14; 20; 5;  9; 14; 20; 5;  9; 14; 20;
    4; 11; 16; 23; 4; 11; 16; 23; 4; 11; 16; 23; 4; 11; 16; 23;
    6; 10; 15; 21; 6; 10; 15; 21; 6; 10; 15; 21; 6; 10; 15; 21 ].

Definition state : Type := Z * Z * Z * Z.

Definition init : state := (0x67452301, 0xefcdab89, 0x98badcfe, 0x10325476).

(** One of the 64 operations on the block [M] of sixteen words. *)
Definition op (M : list Z) (st : state) (i : nat) : state :=
  let '(a, b, c, d) := st in
  let '(f, g) :=
    match (i / 16)%nat with
    | 0%nat => (Z.lor (Z.land b c) (Z.land (lnot32 b) d), i)
    | 1%nat => (Z.lor (Z.land d b) (Z.land (lnot32 d) c), ((5 * i + 1) mod 16)%nat)
    | 2%nat => (Z.lxor (Z.lxor b c) d, ((3 * i + 5) mod 16)%nat)
    | _ => (Z.lxor c (Z.lor b (lnot32 d)), ((7 * i) mod 16)%nat)
    end in
  let f' := w32 (f + a + nth i K 0 + nth g M 0) in
  (d, w32 (b + rotl f' (nth i R 0)), b, c).

(** Little-endian word of four bytes. *)
Definition word_le (bs : list Z) : Z :=
  nth 0 bs 0 + 2 ^ 8 * nth 1 bs 0 + 2 ^ 16 * nth 2 bs 0 + 2 ^ 24 * nth 3 bs 0.

Fixpoint words (n : nat) (bs : list Z) : list Z :=
  match n with
  | O => []
  | S n' => word_le (firstn 4 bs) :: words n' (skipn 4 bs)
  end.

Definition block (st : state) (bs : list Z) : state :=
  let M := words 16 bs in
  let '(a, b, c, d) := st in
  let '(a', b', c', d') := fold_left (op M) (seq 0 64) st in
  (w32 (a + a'), w32 (b + b'), w32 (c + c'), w32 (d + d')).

Fixpoint blocks (n : nat) (st : state) (bs : list Z) : state :=
  match n with
  | O => st
  | S n' => blocks n' (block st (firstn 64 bs)) (skipn 64 bs)
  end.

Fixpoint bytes_le (n : nat) (x : Z) : list Z :=
  match n with
  | O => []
  | S n' => x mod 256 :: bytes_le n' (x / 256)
  end.

Definition pad (bs : list Z) : list Z :=
  let len := Z.of_nat (length bs) in
  bs ++ [0x80] ++ repeat 0 (Z.to_nat ((55 - len) mod 64))
     ++ bytes_le 8 ((8 * len) mod 2 ^ 64).

Definition byte_of_Z (z : Z) : byte :=
  match Byte.of_N (Z.to_N (z mod 256)) with
  | Some b => b
  | None => x00
  end.

Definition Z_of_byte (b : byte) : Z := Z.of_N (Byte.to_N b).

(** The 16-byte digest of a byte string. *)
Definition md5 (data : list byte) : list byte :=
  let p := pad (map Z_of_byte data) in
  let '(a, b, c, d) := blocks (length p / 64)%nat init p in
  map byte_of_Z (bytes_le 4 a ++ bytes_le 4 b ++ bytes_le 4 c ++ bytes_le 4 d).

Definition hex_digit (n : Z) : ascii :=
  nth (Z.to_nat n)
      ["0"; "1"; "2"; "3"; "4"; "5"; "6"; "7";
       "8"; "9"; "a"; "b"; "c"; "d"; "e"; "f"]%char "0"%char.

(** Lower-case hexadecimal rendering, two digits per byte. *)
Fixpoint hex (bs : list byte) : string :=
  match bs with
  | [] => EmptyString
  | b :: bs' =>
      String (hex_digit (Z_of_byte b / 16))
        (String (hex_digit (Z_of_byte b mod 16)) (hex bs'))
  end.

(** An md5 object is determined by the bytes fed to it. *)
Inductive md5_hash : Type := Md5 (fed : list byte).

Definition fed_of (m : md5_hash) : list byte := let 'Md5 d := m in d.
Definition digest (m : md5_hash) : list byte := md5 (fed_of m).
Definition hexdigest (m : md5_hash) : string := hex (digest m).

End MD5.

(** ** Python [str] operations

    A [str] is modelled as a [string]: a sequence of characters whose code
    points are below 256. *)
Module Str.

(** [s.startswith(p)] *)
Fixpoint startswith (p s : string) : bool :=
  match p, s with
  | EmptyString, _ => true
  | String _ _, EmptyString => false
  | String a p', String b s' => if Ascii.eqb a b then startswith p' s' else false
  end.

(** [s.find(sub)]: the lowest index where [sub] occurs, if any. *)
Fixpoint find (sub s : string) : option nat :=
  if startswith sub s then Some O
  else match s with
       | EmptyString => None
       | String _ s' => option_map S (find sub s')
       end.

(** [sub in s] *)
Definition contains (sub s : string) : bool :=
  match find sub s with Some _ => true | None => false end.

(** [s[:n]] and [s[n:]] for [n >= 0]. *)
Fixpoint take (n : nat) (s : string) : string :=
  match n, s with
  | S n', String c s' => String c (take n' s')
  | _, _ => EmptyString
  end.

Fixpoint drop (n : nat) (s : string) : string :=
  match n, s with
  | S n', String _ s' => drop n' s'
  | _, _ => s
  end.

(** [s.replace(old, new)]: every occurrence of [old], found from left to
    right without overlap, becomes [new].  [skip] counts the characters of
    a match that are still to be passed over. *)
Fixpoint replace_from (skip : nat) (old new s : string) : string :=
  match s with
  | EmptyString =>
      match old with EmptyString => new | _ => EmptyString end
  | String c s' =>
      match skip with
      | S k => replace_from k old new s'
      | O =>
          if startswith old s then
            match old with
            | EmptyString => String.append new (String c (replace_from O old new s'))
            | String _ old' =>
                String.append new (replace_from (String.length old') old new s')
            end
          else String c (replace_from O old new s')
      end
  end.

Definition replace (old new s : string) : string := replace_from O old new s.

(** [c.isspace()] for the code points below 256. *)
Definition isspace (c : ascii) : bool :=
  let n := nat_of_ascii c in
  ((9 <=? n) && (n <=? 13) || (28 <=? n) && (n <=? 32)
   || (n =? 133) || (n =? 160))%nat.

Fixpoint lstrip (s : string) : string :=
  match s with
  | String c s' => if isspace c then lstrip s' else s
  | EmptyString => EmptyString
  end.

Fixpoint rstrip (s : string) : string :=
  match s with
  | EmptyString => EmptyString
  | String c s' =>
      match rstrip s' with
      | EmptyString => if isspace c then EmptyString else String c EmptyString
      | r => String c r
      end
  end.

(** [s.strip()] *)
Definition strip (s : string) : string := rstrip (lstrip s).

(** [s.endswith(suffix)] *)
Definition endswith (suffix s : string) : bool :=
  (String.length suffix <=? String.length s)%nat
  && String.eqb (drop (String.length s - String.length suffix) s) suffix.

(** [str(n)] for a natural number [n]. *)
Definition of_nat (n : nat) : string := NilZero.string_of_uint (Nat.to_uint n).

End Str.

Definition bytes_of_string (s : string) : list byte :=
  map byte_of_ascii (list_ascii_of_string s).

(** ** Constants of the script *)

Local Open Scope string_scope.
Local Open Scope list_scope.
Local Open Scope Z_scope.

Definition PERSISTENCE_SNAPSHOT_NAME : string := "incremental".
Definition STATEDELTA_DIFF_NAME : string := "statedelta".
Definition BUCKET_NAME : string := "BUCKET_NAME".
Definition CHUNK_SIZE : Z := 4096.
Definition TESTNET_NAME : string := "TEST_NET_NAME".
Definition MAX_WORKER_JOBS : Z := 50.
Definition S3_MULTIPART_CHUNK_SIZE_IN_MB : Z := 8.

(** The module-level settings that [__main__] may change before [run]. *)
Record Config : Type := mkConfig {
  Exclude_txnBodies : bool;
  Exclude_microBlocks : bool;
  STORAGE_PATH : string
}.

(** ** Outcomes of a call *)

Inductive exn : Type :=
| ConnectionError   (* requests.get got no response *)
| ParseError        (* ET.fromstring on malformed XML *)
| IndexError
| TypeError
| ValueError
| OSError.

Inductive outcome (A : Type) : Type :=
| Ret (a : A)            (* the call returns [a] *)
| Raise (e : exn)        (* an exception deriving from Exception propagates *)
| SystemExit (code : Z)  (* exit(code); `except Exception` lets it through *)
| OsExit (code : Z)      (* os._exit(code): the process ends at once *)
| Timeout.               (* the fuel of a modelled loop ran out *)
Arguments Ret {A} a.
Arguments Raise {A} e.
Arguments SystemExit {A} code.
Arguments OsExit {A} code.
Arguments Timeout {A}.

(** Sequencing of steps that do not touch the world. *)
Definition and_then {A B} (o : outcome A) (k : A -> outcome B) : outcome B :=
  match o with
  | Ret a => k a
  | Raise e => Raise e
  | SystemExit c => SystemExit c
  | OsExit c => OsExit c
  | Timeout => Timeout
  end.

(** ** The world: network, local files, observable events *)

(** An [xml.etree] element: tag, text and children. *)
#[warnings="-register-all"]
Inductive Element : Type :=
| Elem (tag : string) (text : option string) (children : list Element).

Definition text_of (e : Element) : option string := let 'Elem _ t _ := e in t.
Definition children_of (e : Element) : list Element := let 'Elem _ _ c := e in c.

(** What the script reads from a response.  [content_length] is the value
    of [int(headers.get('content-length'))], [None] when [int] raises
    (header absent); [xml] is [ET.fromstring(text)], [None] when the text
    does not parse; [body] lists the blocks of [iter_content]. *)
Record Response : Type := mkResponse {
  status_code : Z;
  content_length : option Z;
  ETag : option string;
  xml : option Element;
  body : list (list byte)
}.

Inductive Reply : Type :=
| NoReply                  (* transport failure: requests.get raises *)
| Served (r : Response).

Inductive Event : Type :=
| Get (url : string) (params : list (string * string))
| Sleep (seconds : Z).

(** [net] scripts the replies to the coming requests, in order; when it is
    used up a request fails like a dead connection.  [files] maps a path to
    the content of the regular file there (directories are not part of the
    model); [tarfile] stands for the archive library: the members of an
    archive, or [None] when it cannot be opened. *)
Record World : Type := mkWorld {
  net : list Reply;
  trace : list Event;
  cwd : string;
  files : gmap string (list byte);
  tarfile : list byte -> option (list (string * list byte))
}.

Definition M (A : Type) : Type := World -> outcome A * World.

Definition ret {A} (a : A) : M A := fun w => (Ret a, w).

(** A step that does not touch the world. *)
Definition lift {A} (o : outcome A) : M A := fun w => (o, w).

Definition bind {A B} (m : M A) (k : A -> M B) : M B := fun w =>
  match m w with
  | (Ret a, w') => k a w'
  | (Raise e, w') => (Raise e, w')
  | (SystemExit c, w') => (SystemExit c, w')
  | (OsExit c, w') => (OsExit c, w')
  | (Timeout, w') => (Timeout, w')
  end.

Notation "x <- m ;; k" := (bind m (fun x => k))
  (at level 100, m at next level, right associativity).
Notation "m ;;; k" := (bind m (fun _ => k))
  (at level 100, right associativity).

(** Updates of one component of the world. *)
Definition with_event (w : World) (e : Event) : World :=
  mkWorld (net w) (trace w ++ [e]) (cwd w) (files w) (tarfile w).

Definition with_files (w : World) (f : gmap string (list byte)) : World :=
  mkWorld (net w) (trace w) (cwd w) f (tarfile w).

Definition with_cwd (w : World) (d : string) : World :=
  mkWorld (net w) (trace w) d (files w) (tarfile w).

(** The world once the request [e] has used up the head of [net]. *)
Definition answered (w : World) (e : Event) (rest : list Reply) : World :=
  mkWorld rest (trace w ++ [e]) (cwd w) (files w) (tarfile w).

Definition emit (e : Event) : M unit := fun w => (Ret tt, with_event w e).

Definition set_files (f : gmap string (list byte)) : M unit := fun w =>
  (Ret tt, with_files w f).

Definition set_cwd (d : string) : M unit := fun w => (Ret tt, with_cwd w d).

(** [requests.get(url, params=params)] *)
Definition requests_get (url : string) (params : list (string * string))
  : M Response := fun w =>
  match net w with
  | [] => (Raise ConnectionError, answered w (Get url params) [])
  | NoReply :: rest => (Raise ConnectionError, answered w (Get url params) rest)
  | Served r :: rest => (Ret r, answered w (Get url params) rest)
  end.

(** [time.sleep(seconds)] *)
Definition time_sleep (seconds : Z) : M unit := emit (Sleep seconds).

(** A relative path is taken from the current directory. *)
Definition abspath (w : World) (path : string) : string :=
  if Str.startswith "/" path then path else cwd w +:+ "/" +:+ path.

(** [os.remove(path)] *)
Definition os_remove (path : string) : M unit := fun w =>
  match files w !! abspath w path with
  | None => (Raise OSError, w)
  | Some _ => set_files (delete (abspath w path) (files w)) w
  end.

(** [shutil.rmtree(path)]: everything below [path] goes; a regular file at
    [path] is an error. *)
Definition shutil_rmtree (path : string) : M unit := fun w =>
  let d := abspath w path in
  match files w !! d with
  | Some _ => (Raise OSError, w)
  | None =>
      set_files
        (filter (fun kv => Str.startswith (d +:+ "/") (fst kv) = false) (files w)) w
  end.

(** [os.chdir(path)] *)
Definition os_chdir (path : string) : M unit := fun w =>
  match files w !! abspath w path with
  | Some _ => (Raise OSError, w)
  | None => set_cwd (abspath w path) w
  end.

(** ** calculate_multipart_etag *)

Definition dquote : string :=
  String (Ascii false true false false false true false false) EmptyString.

Fixpoint take_bytes (n : Z) (l : list byte) : list byte * list byte :=
  match l with
  | [] => ([], [])
  | b :: l' =>
      if n <=? 0 then ([], l)
      else let '(h, t) := take_bytes (n - 1) l' in (b :: h, t)
  end.

(** [fp.read(size)] on the unread rest of a file: the bytes read and the
    new rest.  Size -1 reads to the end; a size below -1 is refused. *)
Definition fp_read (size : Z) (fp : list byte)
  : outcome (list byte * list byte) :=
  if size <? -1 then Raise ValueError
  else if size <? 0 then Ret (fp, [])
  else Ret (take_bytes size fp).

(** The [while True] loop that fills [md5s]. *)
Fixpoint read_loop (fuel : nat) (chunk_size : Z) (fp : list byte)
    (first : bool) (md5s : list MD5.md5_hash) : outcome (list MD5.md5_hash) :=
  match fuel with
  | O => Timeout
  | S fuel' =>
      and_then (fp_read chunk_size fp) (fun '(data, fp') =>
        match data with
        | [] => Ret (if first then md5s ++ [MD5.Md5 []] else md5s)
        | _ :: _ => read_loop fuel' chunk_size fp' false (md5s ++ [MD5.Md5 data])
        end)
  end.

(** The rendering of the collected digests. *)
Definition new_etag (md5s : list MD5.md5_hash) : string :=
  if (1 <? length md5s)%nat then
    let digests := concat (map MD5.digest md5s) in
    let new_md5 := MD5.Md5 digests in
    dquote +:+ MD5.hexdigest new_md5 +:+ "-" +:+ Str.of_nat (length md5s) +:+ dquote
  else
    match md5s with
    | [m] => dquote +:+ MD5.hexdigest m +:+ dquote
    | _ => dquote +:+ dquote
    end.

(** The function on the bytes of the opened file. *)
Definition multipart_etag_of (data : list byte) (chunk_size : Z) : outcome string :=
  and_then (read_loop (S (length data)) chunk_size data true [])
           (fun md5s => Ret (new_etag md5s)).

Definition calculate_multipart_etag (source_path : string) (chunk_size : Z)
  : M string := fun w =>
  match files w !! abspath w source_path with
  | None => (Raise OSError, w)
  | Some data => (multipart_etag_of data chunk_size, w)
  end.

(** ** Upload lock *)

Definition getURL : string := "http://" +:+ BUCKET_NAME +:+ ".s3.amazonaws.com".

Definition lock_url : string :=
  getURL +:+ "/" +:+ PERSISTENCE_SNAPSHOT_NAME +:+ "/" +:+ TESTNET_NAME +:+ "/.lock".

Definition UploadLock : M bool :=
  response <- requests_get lock_url [] ;;
  if status_code response =? 200 then ret true else ret false.

(** ** GetPersistenceKey: one download task *)

(** The local file name of a key URL; [index] raises [ValueError] when the
    network name is not in it. *)
Definition local_filename (key_url : string) : outcome string :=
  match Str.find (TESTNET_NAME +:+ "/") key_url with
  | None => Raise ValueError
  | Some i =>
      Ret (Str.strip
             (Str.replace
                (Str.take (i + String.length (TESTNET_NAME +:+ "/")) key_url)
                "" key_url))
  end.

(** The names [open] takes for a regular file: not the empty name, and
    not a name that ends in a slash. *)
Definition openable (filename : string) : bool :=
  negb (String.eqb filename "") && negb (Str.endswith "/" filename).

(** [open(filename, 'wb')]: the file is created or emptied. *)
Definition open_wb (filename : string) : M unit := fun w =>
  if openable filename then set_files (<[abspath w filename := []]> (files w)) w
  else (Raise OSError, w).

(** [f.write(chunk)] *)
Definition f_write (filename : string) (chunk : list byte) : M unit := fun w =>
  set_files (alter (fun old => old ++ chunk) (abspath w filename) (files w)) w.

(** The loop over [response.iter_content]. *)
Fixpoint write_chunks (filename : string) (chunks : list (list byte)) : M unit :=
  match chunks with
  | [] => ret tt
  | chunk :: rest =>
      match chunk with
      | [] => write_chunks filename rest
      | _ :: _ => f_write filename chunk ;;; write_chunks filename rest
      end
  end.

Definition etag_differs (calc : string) (md5_hash : option string) : bool :=
  match md5_hash with
  | Some h => negb (String.eqb calc h)
  | None => true
  end.

Fixpoint GetPersistenceKey_loop (fuel : nat) (key_url : string)
    (retry_counter : Z) : M unit :=
  match fuel with
  | O => lift Timeout
  | S fuel' =>
      response <- requests_get key_url [] ;;
      filename <- lift (local_filename key_url) ;;
      (* the parent directory is made here; directories are not modelled *)
      open_wb filename ;;;
      total_length <- lift (match content_length response with
                            | Some n => Ret n
                            | None => Raise TypeError
                            end) ;;
      let md5_hash := ETag response in
      write_chunks filename (body response) ;;;
      calc_md5_hash <- calculate_multipart_etag filename
                         (S3_MULTIPART_CHUNK_SIZE_IN_MB * 1024 * 1024) ;;
      if etag_differs calc_md5_hash md5_hash then
        match md5_hash with
        | None => lift (Raise TypeError)   (* the message cannot be built *)
        | Some _ =>
            os_remove filename ;;;
            let retry_counter := retry_counter + 1 in
            if 3 <? retry_counter then
              time_sleep 5 ;;; lift (OsExit 1)
            else GetPersistenceKey_loop fuel' key_url retry_counter
        end
      else ret tt
  end.

Definition GetPersistenceKey (key_url : string) : M unit :=
  GetPersistenceKey_loop 4 key_url 0.

(** ** GetAllObjectsFromS3: listing, then the worker pool *)

(** [pool.map(GetPersistenceKey, tasks)] followed by [shutdown(wait=True)],
    with the tasks run one after the other in the order of submission.
    The result of [map] is never read, so what a task returned or raised
    stays in its future; only [os._exit] ends the process. *)
Fixpoint pool_map (tasks : list string) : M unit :=
  match tasks with
  | [] => ret tt
  | key_url :: rest => fun w =>
      match GetPersistenceKey key_url w with
      | (OsExit c, w') => (OsExit c, w')
      | (Timeout, w') => (Timeout, w')
      | (_, w') => pool_map rest w'
      end
  end.

(** [key[0].text]; a missing text makes the test or the concatenation that
    follows raise [TypeError]. *)
Definition entry_key_url (key : Element) : outcome string :=
  match children_of key with
  | [] => Raise IndexError
  | k :: _ =>
      match text_of k with
      | Some key_url => Ret key_url
      | None => Raise TypeError
      end
  end.

Definition kept (cfg : Config) (key_url : string) : bool :=
  negb (Exclude_txnBodies cfg && Str.contains "txBodies" key_url)
  && negb (Exclude_microBlocks cfg && Str.contains "microBlocks" key_url).

(** The [for key in tree[startInd:]] loop. *)
Fixpoint scan_page (cfg : Config) (url : string) (entries : list Element)
    (list_of_keyurls : list string) (lastkey : string)
  : outcome (list string * string) :=
  match entries with
  | [] => Ret (list_of_keyurls, lastkey)
  | key :: rest =>
      and_then (entry_key_url key) (fun key_url =>
        scan_page cfg url rest
          (if kept cfg key_url
           then list_of_keyurls ++ [url +:+ "/" +:+ key_url]
           else list_of_keyurls)
          key_url)
  end.

Definition listing_params (prefix MARKER : string) : list (string * string) :=
  [("prefix", prefix); ("max-keys", "1000"); ("marker", MARKER)].

(** The paging loop.  [inl 1] is the early [return 1]; [inr l] is the list
    of key URLs when the loop is left by [break]. *)
Fixpoint list_loop (fuel : nat) (cfg : Config) (url prefix MARKER : string)
    (list_of_keyurls : list string) : M (Z + list string) :=
  match fuel with
  | O => lift Timeout
  | S fuel' =>
      response <- requests_get url (listing_params prefix MARKER) ;;
      tree <- lift (match xml response with
                    | Some t => Ret t
                    | None => Raise ParseError
                    end) ;;
      let startInd := 5%nat in
      match drop startInd (children_of tree) with
      | [] => ret (inl 1)
      | entries =>
          r <- lift (scan_page cfg url entries list_of_keyurls "") ;;
          let '(list_of_keyurls, lastkey) := r in
          istruncated <- lift (match children_of tree !! 4%nat with
                               | Some e => Ret (text_of e)
                               | None => Raise IndexError
                               end) ;;
          if decide (istruncated = Some "true") then
            list_loop fuel' cfg url prefix lastkey list_of_keyurls
          else ret (inr list_of_keyurls)
      end
  end.

Definition listing_prefix (folderName : string) : string :=
  match folderName with
  | EmptyString => ""
  | _ => folderName +:+ "/" +:+ TESTNET_NAME
  end.

Definition GetAllObjectsFromS3 (cfg : Config) (url folderName : string) : M Z :=
  fun w =>
  let prefix := listing_prefix folderName in
  (r <- list_loop (S (length (net w))) cfg url prefix "" [] ;;
   match r with
   | inl code => ret code
   | inr list_of_keyurls => pool_map list_of_keyurls ;;; ret 0
   end) w.

(** ** Directory helpers and unpacking *)

Definition path_exists (w : World) (path : string) : bool :=
  let d := abspath w path in
  match files w !! d with
  | Some _ => true
  | None =>
      existsb (fun kv => Str.startswith (d +:+ "/") (fst kv)) (map_to_list (files w))
  end.

Definition CleanupDir (folderName : string) : M unit := fun w =>
  if path_exists w folderName then shutil_rmtree folderName w else (Ret tt, w).

(** [os.mkdir] leaves the files as they are. *)
Definition CreateAndChangeDir (folderName : string) : M unit :=
  os_chdir folderName.

Definition CleanupCreateAndChangeDir (folderName : string) : M unit :=
  CleanupDir folderName ;;; os_chdir folderName.

(** The name of [path] inside directory [d], when [path] lies directly in it. *)
Definition name_in (d path : string) : option string :=
  if Str.startswith (d +:+ "/") path then
    let name := Str.drop (String.length (d +:+ "/")) path in
    if Str.contains "/" name then None else Some name
  else None.

(** [[f for f in os.listdir('.') if os.path.isfile(f)]] *)
Definition listdir_files (w : World) : list string :=
  omap (fun kv => name_in (cwd w) (fst kv)) (map_to_list (files w)).

(** [tarfile.open(f).extractall()] *)
Definition tar_extractall (f : string) : M unit := fun w =>
  match files w !! abspath w f with
  | None => (Raise OSError, w)
  | Some data =>
      match tarfile w data with
      | None => (Raise OSError, w)
      | Some members =>
          set_files
            (fold_left (fun m nc => <[abspath w (fst nc) := snd nc]> m)
                       members (files w)) w
      end
  end.

Fixpoint extract_each (fs : list string) : M unit :=
  match fs with
  | [] => ret tt
  | f :: rest =>
      (if Str.endswith ".tar.gz" f then
         tar_extractall f ;;; os_remove f
       else fun w =>
         match files w !! abspath w f with
         | Some _ => os_remove f w
         | None => shutil_rmtree f w
         end) ;;;
      extract_each rest
  end.

Definition ExtractAllGzippedObjects : M unit := fun w =>
  extract_each (listdir_files w) w.

(** ** The two phases and the controller *)

(** [exit(code)] *)
Definition sys_exit {A} (code : Z) : M A := lift (SystemExit code).

Definition GetEntirePersistenceFromS3 (cfg : Config) : M unit :=
  CleanupDir (STORAGE_PATH cfg +:+ "/persistence") ;;;
  CreateAndChangeDir (STORAGE_PATH cfg) ;;;
  r <- GetAllObjectsFromS3 cfg getURL PERSISTENCE_SNAPSHOT_NAME ;;
  if r =? 1 then sys_exit 1 else ret tt.

Definition GetStateDeltaFromS3 (cfg : Config) : M unit :=
  CleanupCreateAndChangeDir (STORAGE_PATH cfg +:+ "/StateDeltaFromS3") ;;;
  GetAllObjectsFromS3 cfg getURL STATEDELTA_DIFF_NAME ;;;
  ExtractAllGzippedObjects.

(** How the body of the [try] leaves an iteration of [while (True)]. *)
Inductive flow : Type := Continue | Break.

(** The body of the [try] behind the first lock check. *)
Definition snapshot_then_delta (cfg : Config) : M flow :=
  GetEntirePersistenceFromS3 cfg ;;;
  lock2 <- UploadLock ;;
  if Bool.eqb lock2 true then ret Continue
  else GetStateDeltaFromS3 cfg ;;; ret Break.

Definition run_pass (cfg : Config) : M flow :=
  lock1 <- UploadLock ;;
  if Bool.eqb lock1 false then snapshot_then_delta cfg
  else ret Continue.

Fixpoint run (fuel : nat) (cfg : Config) : M unit :=
  match fuel with
  | O => lift Timeout
  | S fuel' => fun w =>
      match run_pass cfg w with
      | (Ret Continue, w') => run fuel' cfg w'
      | (Ret Break, w') => sys_exit 0 w'
      | (Raise e, w') => (time_sleep 5 ;;; run fuel' cfg) w'
      | (SystemExit c, w') => (SystemExit c, w')
      | (OsExit c, w') => (OsExit c, w')
      | (Timeout, w') => (Timeout, w')
      end
  end.

(** ** The entry point *)

(** [os.path.isabs(path)] *)
Definition os_path_isabs (path : string) : bool := Str.startswith "/" path.

(** [os.path.join(a, b)] *)
Definition os_path_join (a b : string) : string :=
  if Str.startswith "/" b then b
  else if String.eqb a "" || Str.endswith "/" a then a +:+ b
  else a +:+ "/" +:+ b.

(** The settings [__main__] arrives at before it calls [run]; [BASE_PATH]
    is the directory of the script and [argv] is [sys.argv]. *)
Definition main_config (BASE_PATH : string) (argv : list string) : Config :=
  if (2 <=? length argv)%nat then
    let STORAGE_PATH :=
      if os_path_isabs (nth 1 argv "") then nth 1 argv ""
      else os_path_join BASE_PATH (nth 1 argv "") in
    if (length argv =? 3)%nat && String.eqb (nth 2 argv "") "false" then
      mkConfig false false STORAGE_PATH
    else mkConfig true true STORAGE_PATH
  else mkConfig true true BASE_PATH.

Definition main (BASE_PATH : string) (argv : list string) (fuel : nat) : M unit :=
  run fuel (main_config BASE_PATH argv).

(** ** Definitions used to state the properties *)

(** The multipart chunk size the workers verify with. *)
Definition MULTIPART_BYTES : Z := S3_MULTIPART_CHUNK_SIZE_IN_MB * 1024 * 1024.

Definition quoted (s : string) : string := dquote +:+ s +:+ dquote.

(** [chunked n data chunks]: [chunks] cuts [data] into consecutive pieces
    of [n] bytes, the last one holding what is left (1 to [n] bytes). *)
Inductive chunked (n : Z) : list byte -> list (list byte) -> Prop :=
| chunked_last (c : list byte) :
    c <> [] -> Z.of_nat (length c) <= n -> chunked n c [c]
| chunked_more (c rest : list byte) (chunks : list (list byte)) :
    Z.of_nat (length c) = n -> chunked n rest chunks ->
    chunked n (c ++ rest) (c :: chunks).

(** The world after an attempt for [key_url] that was answered by the head
    of [net] and left [data] in the file at [p]; and the world after the
    file was removed again. *)
Definition attempt_written (w : World) (key_url : string) (rest : list Reply)
    (p : string) (data : list byte) : World :=
  with_files (answered w (Get key_url []) rest) (<[p := data]> (files w)).

Definition attempt_removed (w : World) (key_url : string) (rest : list Reply)
    (p : string) : World :=
  with_files (answered w (Get key_url []) rest) (delete p (files w)).

(** What the verification step computes for the bytes of a response. *)
Definition computed_etag (r : Response) : outcome string :=
  multipart_etag_of (concat (body r)) MULTIPART_BYTES.

(** The checksum of the received bytes is the ETag of the response. *)
Definition checksum_matches (r : Response) : Prop :=
  is_Some (content_length r)
  /\ exists etag, ETag r = Some etag /\ computed_etag r = Ret etag.

(** The response carries an ETag and the checksum of the received bytes is
    a different string. *)
Definition checksum_fails (r : Response) : Prop :=
  is_Some (content_length r)
  /\ exists etag, ETag r = Some etag /\ computed_etag r <> Ret etag.

(** The listing page a response stands for: the keys of its entries, in
    order, and whether it is flagged as truncated. *)
Fixpoint keys_of (entries : list Element) : option (list string) :=
  match entries with
  | [] => Some []
  | key :: rest =>
      match entry_key_url key, keys_of rest with
      | Ret key_url, Some keys => Some (key_url :: keys)
      | _, _ => None
      end
  end.

Definition page_of (r : Response) : option (list string * bool) :=
  match xml r with
  | Some tree =>
      match keys_of (drop 5 (children_of tree)), children_of tree !! 4%nat with
      | Some keys, Some flag =>
          Some (keys, bool_decide (text_of flag = Some "true"))
      | _, _ => None
      end
  | None => None
  end.

(** The key URLs of the entries of a page that pass the filters. *)
Definition surviving (cfg : Config) (url : string) (keys : list string)
  : list string :=
  map (fun key => url +:+ "/" +:+ key) (List.filter (kept cfg) keys).

(** Every page but the last is flagged as truncated, the last is not. *)
Fixpoint only_last_final (pages : list (list string * bool)) : bool :=
  match pages with
  | [] => false
  | [p] => negb (snd p)
  | p :: rest => snd p && only_last_final rest
  end.

(** The markers of the requests for these pages when the first request
    carries [MARKER]: each later one is the List.last key of the page before. *)
Definition markers_from (MARKER : string) (pages : list (list string * bool))
  : list string :=
  MARKER :: map (fun p => List.last (fst p) "") (removelast pages).

Definition listing_requests (url prefix MARKER : string)
    (pages : list (list string * bool)) : list Event :=
  map (fun m => Get url (listing_params prefix m)) (markers_from MARKER pages).

(** The events a run of the loop adds to the trace: one request for each
    iteration and, before the abort, the pause. *)
Definition task_events (key_url : string) (n : nat) (o : outcome unit)
  : list Event :=
  repeat (Get key_url []) n
  ++ match o with OsExit _ => [Sleep 5] | _ => [] end.

(** An outcome that is a return or an exception: the call neither ends
    the process nor runs out of fuel. *)
Definition plain {A} (o : outcome A) : Prop :=
  match o with
  | Ret _ | Raise _ => True
  | _ => False
  end.

(** An outcome that is plain or ends the process with status 1. *)
Definition plain_or_status_1 {A} (o : outcome A) : Prop :=
  match o with
  | Ret _ | Raise _ => True
  | SystemExit c | OsExit c => c = 1
  | Timeout => False
  end.

(** ** Worlds and replies used in the examples *)

Definition no_tar (_ : list byte) : option (list (string * list byte)) := None.

(** A world whose current directory is [/srv] and holds the given files. *)
Definition world_of (replies : list Reply) (fs : gmap string (list byte)) : World :=
  mkWorld replies [] "/srv" fs no_tar.

Definition cfg0 : Config := mkConfig true true "/srv".

(** A response to an object GET with the given ETag header and bytes. *)
Definition object_response (etag : string) (data : list byte) : Response :=
  mkResponse 200 (Some (Z.of_nat (length data))) (Some etag) None [data].

Definition key_a : string :=
  getURL +:+ "/incremental/TEST_NET_NAME/persistence/a.txt".

(** The bytes [abc] under a wrong ETag, and under their own. *)
Definition abc_wrong : Response :=
  object_response (quoted "00000000000000000000000000000000") (bytes_of_string "abc").

Definition abc_right : Response :=
  object_response (quoted "900150983cd24fb0d6963f7d28e17f72") (bytes_of_string "abc").

(** Four answers with a wrong ETag; three of them and then a right one. *)
Definition four_wrong : World :=
  world_of [Served abc_wrong; Served abc_wrong; Served abc_wrong; Served abc_wrong] ∅.

Definition three_wrong_one_right : World :=
  world_of [Served abc_wrong; Served abc_wrong; Served abc_wrong; Served abc_right] ∅.

(** An object key whose remainder ends in a blank, and one that holds the
    URL prefix of the bucket a second time. *)
Definition key_trailing_blank : string :=
  "incremental/TEST_NET_NAME/persistence/a.txt ".

Definition key_repeating_prefix : string :=
  "incremental/TEST_NET_NAME/x/" +:+ getURL +:+ "/incremental/TEST_NET_NAME/b".

(** A listing document: five leading elements, the fifth of them the
    truncation flag, then one [Contents] element for each key. *)
Definition contents (key : string) : Element :=
  Elem "Contents" None [Elem "Key" (Some key) []].

Definition listing (keys : list string) (truncated : string) : Element :=
  Elem "ListBucketResult" None
    ([ Elem "Name" (Some BUCKET_NAME) []; Elem "Prefix" None [];
       Elem "Marker" None []; Elem "MaxKeys" (Some "1000") [];
       Elem "IsTruncated" (Some truncated) [] ]
     ++ map contents keys).

Definition listing_response (keys : list string) (truncated : string) : Response :=
  mkResponse 200 None None (Some (listing keys truncated)) [].

(** The answer to a lock check: any body, the given status. *)
Definition status_response (code : Z) : Response :=
  mkResponse code None None None [].

(** A lock check answered by a server error, then a snapshot listing. *)
Definition lock_check_fails_on_server : World :=
  world_of [Served (status_response 503);
            Served (listing_response ["incremental/TEST_NET_NAME/persistence/a.txt"] "false");
            Served abc_right] ∅.

(** Unlocked at first; one object is downloaded; locked at the re-check. *)
Definition locked_after_snapshot : World :=
  world_of [Served (status_response 404);
            Served (listing_response ["incremental/TEST_NET_NAME/persistence/a.txt"] "false");
            Served abc_right;
            Served (status_response 200)] ∅.

Definition locked_after_snapshot_checked : World :=
  snd (UploadLock locked_after_snapshot).

Definition locked_after_snapshot_downloaded : World :=
  snd (GetEntirePersistenceFromS3 cfg0 locked_after_snapshot_checked).

(** Unlocked, and the snapshot listing has no entry. *)
Definition snapshot_listing_empty : World :=
  world_of [Served (status_response 404); Served (listing_response [] "false")] ∅.

(** The snapshot goes through; the state-delta listing has no entry. *)
Definition delta_listing_empty : World :=
  world_of [Served (status_response 404);
            Served (listing_response ["incremental/TEST_NET_NAME/persistence/a.txt"] "false");
            Served abc_right;
            Served (status_response 404);
            Served (listing_response [] "false")] ∅.

(** Two listing pages: the first truncated, with a key that the filter for
    transaction bodies drops; the second final. *)
Definition two_pages : list Response :=
  [ listing_response ["incremental/TEST_NET_NAME/persistence/txBodies/1";
                      "incremental/TEST_NET_NAME/persistence/a.txt"] "true";
    listing_response ["incremental/TEST_NET_NAME/persistence/b.txt"] "false" ].

Definition two_pages_listed : list (list string * bool) :=
  [ (["incremental/TEST_NET_NAME/persistence/txBodies/1";
      "incremental/TEST_NET_NAME/persistence/a.txt"], true);
    (["incremental/TEST_NET_NAME/persistence/b.txt"], false) ].

(** The listing names one object; the GET for it gets no response. *)
Definition object_get_unanswered : World :=
  world_of [Served (listing_response ["incremental/TEST_NET_NAME/persistence/a.txt"] "false");
            NoReply] ∅.

(** The same listing; the object arrives without a Content-Length. *)
Definition object_without_length : World :=
  world_of [Served (listing_response ["incremental/TEST_NET_NAME/persistence/a.txt"] "false");
            Served (mkResponse 200 None
                      (Some (quoted "900150983cd24fb0d6963f7d28e17f72")) None
                      [bytes_of_string "abc"])] ∅.

(** The object arrives complete but without an ETag header. *)
Definition abc_without_etag : Response :=
  mkResponse 200 (Some 3) None None [bytes_of_string "abc"].

(** A URL that does not hold the network name followed by a slash. *)
Definition key_elsewhere : string := getURL +:+ "/incremental/OTHER_NET/a.txt".

(** The trace of [n] passes that each consist of a failed lock check and
    the pause behind it. *)
Definition idle_passes (n : nat) : list Event :=
  concat (repeat [Get lock_url []; Sleep 5] n).

(** Unlocked, and the snapshot listing is not XML. *)
Definition snapshot_listing_garbled : World :=
  world_of [Served (status_response 404);
            Served (mkResponse 200 None None None [])] ∅.

(** The files that [shutil.rmtree] of directory [d] leaves. *)
Definition without_tree (d : string) (fs : gmap string (list byte))
  : gmap string (list byte) :=
  filter (fun kv => Str.startswith (d +:+ "/") (fst kv) = false) fs.

(** A snapshot directory with two files, and a file beside it. *)
Definition stale_snapshot : World :=
  world_of []
    (<[ "/srv/persistence/a.txt" := bytes_of_string "abc" ]>
       (<[ "/srv/persistence/sub/b.txt" := bytes_of_string "abc" ]>
          {[ "/srv/persistence.log" := bytes_of_string "abc" ]})).

(** A scratch directory with two files that are no archives and a file in
    a directory below it. *)
Definition scratch_without_archives : World :=
  mkWorld [] [] "/srv/StateDeltaFromS3"
    (<[ "/srv/StateDeltaFromS3/a.txt" := bytes_of_string "abc" ]>
       (<[ "/srv/StateDeltaFromS3/b.bin" := bytes_of_string "abc" ]>
          {[ "/srv/StateDeltaFromS3/sub/c.txt" := bytes_of_string "abc" ]}))
    no_tar.

(** * Properties *)

(** ** The digest model agrees with the RFC 1321 test suite *)

Example md5_empty : MD5.hex (MD5.md5 []) = "d41d8cd98f00b204e9800998ecf8427e"%string.
Proof. vm_compute. reflexivity. Qed.

Example md5_abc :
  MD5.hex (MD5.md5 (bytes_of_string "abc")) = "900150983cd24fb0d6963f7d28e17f72"%string.
Proof. vm_compute. reflexivity. Qed.

Example md5_long :
  MD5.hex (MD5.md5 (bytes_of_string
    "12345678901234567890123456789012345678901234567890123456789012345678901234567890"))
  = "57edf4a22be3c955ac49da2e2107b67a"%string.
Proof. vm_compute. reflexivity. Qed.


(** ** Python string operations on examples *)

Example replace_all_occurrences : Str.replace "ab" "" "abxaby" = "xy".
Proof. reflexivity. Qed.

Example replace_no_overlap : Str.replace "aa" "-" "aaaaa" = "--a".
Proof. reflexivity. Qed.

Example replace_empty_old : Str.replace "" "-" "abc" = "-a-b-c-".
Proof. reflexivity. Qed.

Example strip_both_ends : Str.strip "  a b  " = "a b".
Proof. reflexivity. Qed.

Example find_first : Str.find "N/" "aN/aN/b" = Some 1%nat.
Proof. reflexivity. Qed.

Example endswith_targz : Str.endswith ".tar.gz" "a.tar.gz" = true.
Proof. reflexivity. Qed.

Example str_of_nat_12 : Str.of_nat 12 = "12".
Proof. reflexivity. Qed.

(** ** calculate_multipart_etag *)

Lemma take_bytes_spec (l : list byte) (n : Z) :
  take_bytes n l = (take (Z.to_nat n) l, drop (Z.to_nat n) l).
Proof.
  revert n. induction l as [|b l IH]; intros n; simpl.
  - by rewrite take_nil, drop_nil.
  - destruct (Z.leb_spec n 0) as [Hn|Hn].
    + replace (Z.to_nat n) with O by lia. reflexivity.
    + rewrite IH. replace (Z.to_nat n) with (S (Z.to_nat (n - 1))) by lia.
      reflexivity.
Qed.

Lemma fp_read_nil (size : Z) : -1 <= size -> fp_read size [] = Ret ([], []).
Proof.
  intros H. unfold fp_read. destruct (Z.ltb_spec size (-1)); [lia|].
  destruct (size <? 0); reflexivity.
Qed.

Lemma fp_read_pos (size : Z) (fp : list byte) :
  0 < size ->
  fp_read size fp = Ret (take (Z.to_nat size) fp, drop (Z.to_nat size) fp).
Proof.
  intros H. unfold fp_read. destruct (Z.ltb_spec size (-1)); [lia|].
  destruct (Z.ltb_spec size 0); [lia|]. by rewrite take_bytes_spec.
Qed.

(** A size below -1 stops the function at the first read. *)
Lemma read_loop_bad_size (fuel : nat) (cs : Z) (fp : list byte) (first : bool)
    (md5s : list MD5.md5_hash) :
  cs < -1 -> read_loop (S fuel) cs fp first md5s = Raise ValueError.
Proof.
  intros H. cbn [read_loop]. unfold fp_read.
  by destruct (Z.ltb_spec cs (-1)); [|lia].
Qed.

(** At the end of the file the loop stops at once; only a file that was
    empty from the start gets the digest of no data. *)
Lemma read_loop_eof (fuel : nat) (cs : Z) (first : bool) (md5s : list MD5.md5_hash) :
  -1 <= cs ->
  read_loop (S fuel) cs [] first md5s
  = Ret (if first then md5s ++ [MD5.Md5 []] else md5s).
Proof. intros H. cbn [read_loop]. by rewrite fp_read_nil. Qed.

Lemma read_loop_chunked (cs : Z) :
  0 < cs ->
  forall (fuel : nat) (fp : list byte) (first : bool) (md5s : list MD5.md5_hash),
    fp <> [] -> (length fp < fuel)%nat ->
    exists chunks,
      chunked cs fp chunks
      /\ read_loop fuel cs fp first md5s = Ret (md5s ++ map MD5.Md5 chunks).
Proof.
  intros Hcs. induction fuel as [|fuel IH]; intros fp first md5s Hne Hlen; [lia|].
  cbn [read_loop]. rewrite (fp_read_pos _ _ Hcs). cbn [and_then].
  set (n := Z.to_nat cs).
  assert (Hn : (0 < n)%nat) by (subst n; lia).
  destruct (take n fp) as [|b data] eqn:Htake.
  - destruct fp; [congruence|]. destruct n; [lia|discriminate].
  - rewrite <- Htake.
    assert (Hfp : take n fp ++ drop n fp = fp) by apply take_drop.
    destruct (drop n fp) as [|b' rest] eqn:Hdrop.
    + exists [take n fp]. split.
      * rewrite app_nil_r in Hfp. rewrite Hfp. apply chunked_last; [done|].
        assert (length fp <= n)%nat.
        { destruct (Nat.le_gt_cases (length fp) n) as [|Hgt]; [done|].
          assert (length (drop n fp) = 0%nat) by (by rewrite Hdrop).
          rewrite length_drop in *. lia. }
        subst n. lia.
      * destruct fuel as [|fuel]; [destruct fp; simpl in *; [congruence|lia]|].
        rewrite read_loop_eof by lia. reflexivity.
    + destruct (IH (b' :: rest) false (md5s ++ [MD5.Md5 (take n fp)]))
        as (chunks & Hch & Hrun).
      * done.
      * rewrite <- Hdrop, length_drop.
        destruct fp; [congruence|]. simpl in *. lia.
      * exists (take n fp :: chunks). split.
        -- assert (Hl : Z.of_nat (length (take n fp)) = cs).
           { rewrite length_take.
             assert (length (drop n fp) <> 0%nat) by (by rewrite Hdrop).
             rewrite length_drop in *. subst n. lia. }
           pose proof (chunked_more cs _ _ _ Hl Hch) as Hc.
           by rewrite Hfp in Hc.
        -- rewrite Hrun, <- app_assoc. reflexivity.
Qed.

Lemma chunked_nonempty (n : Z) (data : list byte) (chunks : list (list byte)) :
  chunked n data chunks -> data <> [] /\ chunks <> [] /\ concat chunks = data.
Proof.
  induction 1 as [c Hc Hl|c rest chunks Hl Hch (IH1 & IH2 & IH3)].
  - split_and!; [done|done|]. simpl. by rewrite app_nil_r.
  - split_and!; [|done|].
    + destruct c; simpl; [|done]. done.
    + simpl. by rewrite IH3.
Qed.

Lemma str_app_assoc (a b c : string) : (a +:+ b) +:+ c = a +:+ (b +:+ c).
Proof.
  induction a as [|x a IH]; [reflexivity|].
  change (String x ((a +:+ b) +:+ c) = String x (a +:+ (b +:+ c))).
  by rewrite IH.
Qed.

(** The loop always ends within the fuel it is given, whatever the chunk
    size. *)
Lemma multipart_etag_of_total (data : list byte) (chunk_size : Z) :
  -1 <= chunk_size ->
  exists etag, multipart_etag_of data chunk_size = Ret etag.
Proof.
  intros Hsize. unfold multipart_etag_of.
  destruct data as [|b data]; [rewrite read_loop_eof by done; by eexists|].
  destruct (Z.lt_trichotomy chunk_size 0) as [Hneg|[Hz|Hpos]].
  - assert (chunk_size = -1) as -> by lia. eexists. reflexivity.
  - subst chunk_size. by eexists.
  - destruct (read_loop_chunked chunk_size Hpos (S (length (b :: data)))
                (b :: data) true []) as (chunks & _ & ->); [done|lia|].
    by eexists.
Qed.

Lemma multipart_etag_of_chunked (data : list byte) (chunk_size : Z) :
  data <> [] -> 0 < chunk_size ->
  exists chunks,
    chunked chunk_size data chunks
    /\ multipart_etag_of data chunk_size = Ret (new_etag (map MD5.Md5 chunks)).
Proof.
  intros Hne Hpos. unfold multipart_etag_of.
  destruct (read_loop_chunked chunk_size Hpos (S (length data)) data true [])
    as (chunks & Hch & ->); [done|lia|].
  exists chunks. split; [done|reflexivity].
Qed.

Lemma new_etag_single (c : list byte) :
  new_etag [MD5.Md5 c] = quoted (MD5.hex (MD5.md5 c)).
Proof. reflexivity. Qed.

Lemma new_etag_multi (chunks : list (list byte)) :
  (1 < length chunks)%nat ->
  new_etag (map MD5.Md5 chunks)
  = quoted (MD5.hex (MD5.md5 (concat (map MD5.md5 chunks)))
            +:+ "-" +:+ Str.of_nat (length chunks)).
Proof.
  intros Hlen. unfold new_etag. rewrite length_map.
  destruct (Nat.ltb_spec 1 (length chunks)) as [_|]; [|lia].
  unfold quoted, MD5.hexdigest, MD5.digest. cbn [MD5.fed_of].
  rewrite map_map. cbn [MD5.fed_of].
  rewrite !str_app_assoc. reflexivity.
Qed.

(** The cut of a file into chunks is determined by the file and the size. *)
Lemma chunked_unique (n : Z) (data : list byte) (c1 c2 : list (list byte)) :
  0 < n -> chunked n data c1 -> chunked n data c2 -> c1 = c2.
Proof.
  intros Hn H1. revert c2.
  induction H1 as [c Hc Hl|c rest chunks Hl Hch IH]; intros c2 H2.
  - inversion H2 as [c' Hc' Hl' E1|c' rest' chunks' Hl' Hch' E1]; subst; [done|].
    destruct (chunked_nonempty _ _ _ Hch') as (Hr & _ & _).
    rewrite length_app in Hl. destruct rest'; [done|]. simpl in Hl. lia.
  - inversion H2 as [c' Hc' Hl' E1|c' rest' chunks' Hl' Hch' E1]; subst.
    + destruct (chunked_nonempty _ _ _ Hch) as (Hr & _ & _).
      rewrite length_app in Hl'. destruct rest; [done|]. simpl in Hl'. lia.
    + assert (Hlen : length c' = length c) by lia.
      apply app_inj_1 in E1 as [-> ->]; [|done].
      f_equal. by apply IH.
Qed.

(** C1 (as amended): a file of size 0 gets the quoted hex MD5 digest of the
    empty byte string, for every chunk size that [read] accepts; the loop
    appends the digest of no data when the first read is empty, so the list
    of digests has one element and the branch for a single digest renders
    it. *)
Theorem calculate_multipart_etag_empty_file
    (w : World) (source_path : string) (chunk_size : Z) :
  files w !! abspath w source_path = Some [] ->
  -1 <= chunk_size ->
  calculate_multipart_etag source_path chunk_size w
  = (Ret (quoted "d41d8cd98f00b204e9800998ecf8427e"), w).
Proof.
  intros Hfile Hsize. unfold calculate_multipart_etag. rewrite Hfile.
  unfold multipart_etag_of. rewrite read_loop_eof by done. reflexivity.
Qed.

Lemma calculate_multipart_etag_empty_file_witness :
  calculate_multipart_etag "f" MULTIPART_BYTES (world_of [] {[ "/srv/f" := [] ]})
  = (Ret (quoted "d41d8cd98f00b204e9800998ecf8427e"),
     world_of [] {[ "/srv/f" := [] ]}).
Proof.
  apply (calculate_multipart_etag_empty_file
           (world_of [] {[ "/srv/f" := [] ]}) "f" MULTIPART_BYTES).
  - vm_compute. reflexivity.
  - discriminate.
Defined.

(** C1 (as stated) fails: for the empty file [/srv/f] the result is not the
    pair of quotes with nothing inside. *)
Lemma calculate_multipart_etag_empty_file_not_bare_quotes :
  files (world_of [] {[ "/srv/f" := [] ]})
    !! abspath (world_of [] {[ "/srv/f" := [] ]}) "f" = Some []
  /\ fst (calculate_multipart_etag "f" MULTIPART_BYTES
            (world_of [] {[ "/srv/f" := [] ]}))
     <> Ret (dquote +:+ dquote).
Proof. split; [vm_compute; reflexivity|]. vm_compute. discriminate. Qed.

(** C5: for a non-empty file read in chunks of [chunk_size] bytes, one chunk
    gives the quoted hex MD5 digest of that chunk, and N > 1 chunks give the
    quoted hex MD5 digest of the N binary chunk digests put end to end,
    then ["-"] and N. *)
Theorem calculate_multipart_etag_nonempty_file
    (w : World) (source_path : string) (chunk_size : Z) (data : list byte) :
  files w !! abspath w source_path = Some data ->
  data <> [] ->
  0 < chunk_size ->
  exists chunks,
    chunked chunk_size data chunks
    /\ (forall c, chunks = [c] ->
         calculate_multipart_etag source_path chunk_size w
         = (Ret (quoted (MD5.hex (MD5.md5 c))), w))
    /\ ((1 < length chunks)%nat ->
         calculate_multipart_etag source_path chunk_size w
         = (Ret (quoted (MD5.hex (MD5.md5 (concat (map MD5.md5 chunks)))
                         +:+ "-" +:+ Str.of_nat (length chunks))), w)).
Proof.
  intros Hfile Hne Hpos.
  destruct (multipart_etag_of_chunked data chunk_size Hne Hpos)
    as (chunks & Hch & Hetag).
  exists chunks. split; [done|].
  unfold calculate_multipart_etag. rewrite Hfile, Hetag. split.
  - intros c ->. cbn [map]. by rewrite new_etag_single.
  - intros Hlen. by rewrite new_etag_multi.
Qed.

Lemma calculate_multipart_etag_nonempty_file_witness :
  exists chunks,
    chunked 8 (bytes_of_string "abcdefghi") chunks
    /\ (forall c, chunks = [c] ->
         calculate_multipart_etag "f" 8
           (world_of [] {[ "/srv/f" := bytes_of_string "abcdefghi" ]})
         = (Ret (quoted (MD5.hex (MD5.md5 c))),
            world_of [] {[ "/srv/f" := bytes_of_string "abcdefghi" ]}))
    /\ ((1 < length chunks)%nat ->
         calculate_multipart_etag "f" 8
           (world_of [] {[ "/srv/f" := bytes_of_string "abcdefghi" ]})
         = (Ret (quoted (MD5.hex (MD5.md5 (concat (map MD5.md5 chunks)))
                         +:+ "-" +:+ Str.of_nat (length chunks))),
            world_of [] {[ "/srv/f" := bytes_of_string "abcdefghi" ]})).
Proof.
  apply (calculate_multipart_etag_nonempty_file
           (world_of [] {[ "/srv/f" := bytes_of_string "abcdefghi" ]})
           "f" 8 (bytes_of_string "abcdefghi")).
  - vm_compute. reflexivity.
  - discriminate.
  - lia.
Defined.

Example etag_two_chunks :
  multipart_etag_of (bytes_of_string "abcdefghi") 8
  = Ret (quoted "b70366f8adef2f69476dd2f0ec3abcf9-2").
Proof. vm_compute. reflexivity. Qed.

Example etag_one_full_chunk :
  multipart_etag_of (bytes_of_string "abcdefgh") 8
  = Ret (quoted "e8dc4081b13434b45189a720b77b6818").
Proof. vm_compute. reflexivity. Qed.

(** ** GetPersistenceKey *)

Lemma write_chunks_spec (filename : string) (chunks : list (list byte)) :
  forall (w : World) (old : list byte),
    files w !! abspath w filename = Some old ->
    write_chunks filename chunks w
    = (Ret tt,
       with_files w (<[abspath w filename := old ++ concat chunks]> (files w))).
Proof.
  induction chunks as [|chunk rest IH]; intros w old Hold.
  - simpl. rewrite app_nil_r, insert_id by done. by destruct w.
  - destruct chunk as [|b chunk].
    + cbn [write_chunks concat]. by rewrite (IH w old Hold).
    + cbn [write_chunks]. unfold bind, f_write, set_files.
      erewrite IH; [|cbn; rewrite lookup_alter_eq, Hold; reflexivity].
      cbn. f_equal. unfold with_files. cbn. f_equal.
      rewrite <- app_assoc.
      apply map_eq. intros k. rewrite !lookup_insert, lookup_alter.
      by destruct (decide _).
Qed.

(** One pass through the loop body when the request is answered and the
    file can be opened: the bytes are written, the checksum is computed
    over them, and on a mismatch the file is removed before the counter is
    consulted. *)
Lemma GetPersistenceKey_attempt (fuel : nat) (key_url f : string) (rc : Z)
    (w : World) (r : Response) (rest : list Reply) (calc : string) :
  net w = Served r :: rest ->
  local_filename key_url = Ret f ->
  openable f = true ->
  is_Some (content_length r) ->
  computed_etag r = Ret calc ->
  GetPersistenceKey_loop (S fuel) key_url rc w
  = match ETag r with
    | None =>
        (Raise TypeError,
         attempt_written w key_url rest (abspath w f) (concat (body r)))
    | Some e =>
        if String.eqb calc e then
          (Ret tt, attempt_written w key_url rest (abspath w f) (concat (body r)))
        else if 3 <? rc + 1 then
          (OsExit 1,
           with_event (attempt_removed w key_url rest (abspath w f)) (Sleep 5))
        else
          GetPersistenceKey_loop fuel key_url (rc + 1)
            (attempt_removed w key_url rest (abspath w f))
    end.
Proof.
  intros Hnet Hf Hne [n Hn] Hcalc.
  cbn [GetPersistenceKey_loop]. unfold bind at 1. unfold requests_get.
  rewrite Hnet. unfold bind at 1. unfold lift at 1. rewrite Hf.
  unfold bind at 1. unfold open_wb. rewrite Hne. set (fn := f) in *.
  unfold set_files. unfold bind at 1. unfold lift at 1. rewrite Hn.
  unfold bind at 1.
  set (w1 := with_files _ _).
  assert (Hp : abspath w1 fn = abspath w fn) by reflexivity.
  rewrite (write_chunks_spec fn (body r) w1 []);
    [|rewrite Hp; apply lookup_insert_eq].
  unfold bind at 1. unfold calculate_multipart_etag.
  set (w2 := with_files w1 _).
  assert (Hp2 : abspath w2 fn = abspath w fn) by reflexivity.
  assert (Hw2 : w2 = attempt_written w key_url rest (abspath w fn) (concat (body r))).
  { subst w2 w1. unfold attempt_written, with_files, answered. cbn.
    f_equal. by rewrite insert_insert_eq. }
  rewrite Hw2. clear Hw2 Hp2 w2 Hp w1.
  set (w2 := attempt_written _ _ _ _ _).
  assert (Hp2 : abspath w2 fn = abspath w fn) by reflexivity.
  rewrite Hp2.
  assert (Hl : files w2 !! abspath w fn = Some (concat (body r)))
    by apply lookup_insert_eq.
  rewrite Hl. unfold computed_etag in Hcalc. unfold MULTIPART_BYTES in Hcalc.
  rewrite Hcalc.
  destruct (ETag r) as [e|] eqn:He.
  - unfold etag_differs. destruct (String.eqb calc e); cbn [negb].
    + reflexivity.
    + unfold bind at 1. unfold os_remove. rewrite Hp2, Hl.
      unfold set_files.
      assert (Hw3 : with_files w2 (delete (abspath w fn) (files w2))
                    = attempt_removed w key_url rest (abspath w fn)).
      { subst w2. unfold attempt_written, attempt_removed, with_files, answered.
        cbn. f_equal. by rewrite delete_insert_eq. }
      rewrite Hw3. destruct (3 <? rc + 1); reflexivity.
  - reflexivity.
Qed.

Lemma computed_etag_total (r : Response) : exists calc, computed_etag r = Ret calc.
Proof. apply multipart_etag_of_total. discriminate. Qed.

(** A failed verification: the file is removed, then the counter decides
    between the abort and the next attempt. *)
Lemma GetPersistenceKey_attempt_fails (fuel : nat) (key_url f : string) (rc : Z)
    (w : World) (r : Response) (rest : list Reply) :
  net w = Served r :: rest ->
  local_filename key_url = Ret f ->
  openable f = true ->
  checksum_fails r ->
  files (attempt_removed w key_url rest (abspath w f)) !! abspath w f = None
  /\ GetPersistenceKey_loop (S fuel) key_url rc w
     = if 3 <? rc + 1 then
         (OsExit 1,
          with_event (attempt_removed w key_url rest (abspath w f)) (Sleep 5))
       else
         GetPersistenceKey_loop fuel key_url (rc + 1)
           (attempt_removed w key_url rest (abspath w f)).
Proof.
  intros Hnet Hf Hne (Hlen & e & He & Hdiff).
  split; [apply lookup_delete_eq|].
  destruct (computed_etag_total r) as [calc Hcalc].
  rewrite (GetPersistenceKey_attempt fuel key_url f rc w r rest calc) by done.
  rewrite He. destruct (String.eqb_spec calc e) as [->|_]; [|reflexivity].
  congruence.
Qed.

Lemma GetPersistenceKey_attempt_matches (fuel : nat) (key_url f : string) (rc : Z)
    (w : World) (r : Response) (rest : list Reply) :
  net w = Served r :: rest ->
  local_filename key_url = Ret f ->
  openable f = true ->
  checksum_matches r ->
  GetPersistenceKey_loop (S fuel) key_url rc w
  = (Ret tt, attempt_written w key_url rest (abspath w f) (concat (body r))).
Proof.
  intros Hnet Hf Hne (Hlen & e & He & Hsame).
  rewrite (GetPersistenceKey_attempt fuel key_url f rc w r rest e) by done.
  rewrite He. by rewrite String.eqb_refl.
Qed.

(** C4: four failed verifications in a row end the process with status 1;
    three failures followed by a matching fourth attempt let the task
    return normally, the verified file in place. *)
Theorem GetPersistenceKey_retry_ceiling (key_url f : string) (w : World)
    (r1 r2 r3 r4 : Response) (rest : list Reply) :
  local_filename key_url = Ret f ->
  openable f = true ->
  net w = Served r1 :: Served r2 :: Served r3 :: Served r4 :: rest ->
  checksum_fails r1 -> checksum_fails r2 -> checksum_fails r3 ->
  (checksum_fails r4 ->
   fst (GetPersistenceKey key_url w) = OsExit 1
   /\ 1 <> 0
   /\ net (snd (GetPersistenceKey key_url w)) = rest)
  /\ (checksum_matches r4 ->
      fst (GetPersistenceKey key_url w) = Ret tt
      /\ net (snd (GetPersistenceKey key_url w)) = rest
      /\ files (snd (GetPersistenceKey key_url w)) !! abspath w f
         = Some (concat (body r4))).
Proof.
  intros Hf Hne Hnet H1 H2 H3. unfold GetPersistenceKey.
  destruct (GetPersistenceKey_attempt_fails 3 key_url f 0 w r1 _ Hnet Hf Hne H1)
    as [_ ->].
  change (3 <? 0 + 1) with false; change (0 + 1) with 1; cbv iota.
  set (w1 := attempt_removed w _ _ _).
  destruct (GetPersistenceKey_attempt_fails 2 key_url f 1 w1 r2 _ eq_refl Hf Hne H2)
    as [_ ->].
  change (3 <? 1 + 1) with false; change (1 + 1) with 2; cbv iota.
  set (w2 := attempt_removed w1 _ _ _).
  destruct (GetPersistenceKey_attempt_fails 1 key_url f 2 w2 r3 _ eq_refl Hf Hne H3)
    as [_ ->].
  change (3 <? 2 + 1) with false; change (2 + 1) with 3; cbv iota.
  set (w3 := attempt_removed w2 _ _ _).
  split.
  - intros H4.
    destruct (GetPersistenceKey_attempt_fails 0 key_url f 3 w3 r4 _ eq_refl Hf Hne H4)
      as [_ ->].
    change (3 <? 3 + 1) with true; cbv iota.
    split_and!; [reflexivity|lia|reflexivity].
  - intros H4.
    rewrite (GetPersistenceKey_attempt_matches 0 key_url f 3 w3 r4 rest eq_refl Hf Hne H4).
    split_and!; [reflexivity|reflexivity|].
    apply lookup_insert_eq.
Qed.

(** Closes the side conditions of an instance on concrete replies. *)
Ltac concrete_reply :=
  first
    [ reflexivity
    | discriminate
    | split; [by eexists
             | eexists; split; [reflexivity | vm_compute; discriminate]]
    | split; [by eexists
             | eexists; split; [reflexivity | vm_compute; reflexivity]] ].

Lemma GetPersistenceKey_retry_ceiling_witness :
  (fst (GetPersistenceKey key_a four_wrong) = OsExit 1
   /\ 1 <> 0
   /\ net (snd (GetPersistenceKey key_a four_wrong)) = [])
  /\ (fst (GetPersistenceKey key_a three_wrong_one_right) = Ret tt
      /\ net (snd (GetPersistenceKey key_a three_wrong_one_right)) = []
      /\ files (snd (GetPersistenceKey key_a three_wrong_one_right))
           !! abspath three_wrong_one_right "persistence/a.txt"
         = Some (concat (body abc_right))).
Proof.
  split.
  - apply (GetPersistenceKey_retry_ceiling key_a "persistence/a.txt" four_wrong
             abc_wrong abc_wrong abc_wrong abc_wrong []);
      concrete_reply.
  - apply (GetPersistenceKey_retry_ceiling key_a "persistence/a.txt"
             three_wrong_one_right abc_wrong abc_wrong abc_wrong abc_right []);
      concrete_reply.
Defined.

Lemma local_filename_cases (key_url : string) :
  (exists f, local_filename key_url = Ret f)
  \/ local_filename key_url = Raise ValueError.
Proof.
  unfold local_filename. destruct (Str.find _ key_url); [left|right]; eauto.
Qed.

(** An iteration either dies of an exception before anything is verified
    or is an attempt in the sense of [GetPersistenceKey_attempt]. *)
Lemma GetPersistenceKey_loop_head (fuel : nat) (key_url : string) (rc : Z)
    (w : World) :
  (exists e w1, GetPersistenceKey_loop (S fuel) key_url rc w = (Raise e, w1))
  \/ (exists r rest f calc,
        net w = Served r :: rest
        /\ local_filename key_url = Ret f
        /\ openable f = true
        /\ is_Some (content_length r)
        /\ computed_etag r = Ret calc).
Proof.
  cbn [GetPersistenceKey_loop]. unfold bind at 1. unfold requests_get.
  destruct (net w) as [|[|r] rest] eqn:Hnet; [left; eauto..|].
  unfold bind at 1. unfold lift at 1.
  destruct (local_filename_cases key_url) as [[f Hf]|Hf]; rewrite Hf;
    [|left; eauto].
  unfold bind at 1. unfold open_wb.
  destruct (openable f) eqn:Hopen; [|left; eauto].
  unfold set_files. unfold bind at 1. unfold lift at 1.
  destruct (content_length r) as [n|] eqn:Hn; [|left; eauto].
  destruct (computed_etag_total r) as [calc Hcalc].
  right. exists r, rest, f, calc.
  split_and!; [done|done|done|by rewrite Hn|done].
Qed.

(** What a finished run of the loop leaves behind, for any fuel, counter
    and world: after a normal return the file holds the bytes of the last
    response served and their checksum is that response's ETag; after the
    abort the file is gone. *)
Lemma GetPersistenceKey_loop_leaves (key_url : string) :
  forall (fuel : nat) (rc : Z) (w w' : World) (o : outcome unit),
    GetPersistenceKey_loop fuel key_url rc w = (o, w') ->
    match o with
    | Ret _ =>
        exists f r pre etag,
          local_filename key_url = Ret f
          /\ net w = pre ++ Served r :: net w'
          /\ files w' !! abspath w' f = Some (concat (body r))
          /\ ETag r = Some etag
          /\ multipart_etag_of (concat (body r)) MULTIPART_BYTES = Ret etag
    | OsExit _ =>
        exists f, local_filename key_url = Ret f
                  /\ files w' !! abspath w' f = None
    | _ => True
    end.
Proof.
  induction fuel as [|fuel IH]; intros rc w w' o Hrun.
  - cbn in Hrun. by injection Hrun as <- <-.
  - destruct (GetPersistenceKey_loop_head fuel key_url rc w)
      as [(e & w1 & Hexn)|(r & rest & f & calc & Hnet & Hf & Hne & Hn & Hcalc)].
    { rewrite Hexn in Hrun. by injection Hrun as <- <-. }
    rewrite (GetPersistenceKey_attempt fuel key_url f rc w r rest calc)
      in Hrun by done.
    destruct (ETag r) as [e|] eqn:He; [|by injection Hrun as <- <-].
    destruct (String.eqb_spec calc e) as [->|Hdiff].
    + injection Hrun as <- <-. exists f, r, [], e.
      split_and!; [done|done|apply lookup_insert_eq|done|done].
    + destruct (3 <? rc + 1).
      * injection Hrun as <- <-. exists f. split; [done|].
        apply lookup_delete_eq.
      * apply IH in Hrun. destruct o as [[]|e'|c|c|]; try done.
        destruct Hrun as (f' & r' & pre & etag & H1 & H2 & H3 & H4 & H5).
        exists f', r', (Served r :: pre), etag.
        split_and!; try done. rewrite Hnet. cbn in H2. by rewrite H2.
Qed.

(** The retry counter bounds the loop: from counter 0, four units of fuel
    are never used up. *)
Lemma GetPersistenceKey_loop_ends (key_url : string) :
  forall (fuel : nat) (rc : Z) (w : World),
    rc <= 3 -> 4 - rc <= Z.of_nat fuel ->
    fst (GetPersistenceKey_loop fuel key_url rc w) <> Timeout.
Proof.
  induction fuel as [|fuel IH]; intros rc w Hrc Hfuel; [lia|].
  destruct (GetPersistenceKey_loop_head fuel key_url rc w)
    as [(e & w1 & Hexn)|(r & rest & f & calc & Hnet & Hf & Hne & Hn & Hcalc)].
  { by rewrite Hexn. }
  rewrite (GetPersistenceKey_attempt fuel key_url f rc w r rest calc) by done.
  destruct (ETag r) as [e|]; [|done].
  destruct (String.eqb calc e); [done|].
  destruct (Z.ltb_spec 3 (rc + 1)); [done|].
  apply IH; lia.
Qed.

(** C6: when the per-task loop of a worker is over, by success or by the
    abort, the file either holds bytes whose multipart checksum is the
    ETag the store reported for the key, or it does not exist; and an
    attempt whose checksum differs from the ETag removes the file before
    the loop retries or aborts.  The loop is always over within its four
    iterations. *)
Theorem GetPersistenceKey_file_verified_or_absent
    (key_url : string) (w w' : World) (o : outcome unit) :
  GetPersistenceKey key_url w = (o, w') ->
  o <> Timeout
  /\ (o = Ret tt ->
      exists f r pre data etag,
        local_filename key_url = Ret f
        /\ net w = pre ++ Served r :: net w'
        /\ ETag r = Some etag
        /\ files w' !! abspath w' f = Some data
        /\ multipart_etag_of data MULTIPART_BYTES = Ret etag)
  /\ (forall code, o = OsExit code ->
      exists f, local_filename key_url = Ret f
                /\ files w' !! abspath w' f = None)
  /\ (forall fuel rc w0 r rest f,
      net w0 = Served r :: rest ->
      local_filename key_url = Ret f ->
      openable f = true ->
      checksum_fails r ->
      exists w2,
        files w2 !! abspath w2 f = None
        /\ GetPersistenceKey_loop (S fuel) key_url rc w0
           = if 3 <? rc + 1 then (OsExit 1, with_event w2 (Sleep 5))
             else GetPersistenceKey_loop fuel key_url (rc + 1) w2).
Proof.
  intros Hrun. split_and!.
  - pose proof (GetPersistenceKey_loop_ends key_url 4 0 w) as Hends.
    unfold GetPersistenceKey in Hrun. rewrite Hrun in Hends.
    apply Hends; lia.
  - apply GetPersistenceKey_loop_leaves in Hrun.
    intros ->. destruct Hrun as (f & r & pre & etag & H1 & H2 & H3 & H4 & H5).
    by exists f, r, pre, (concat (body r)), etag.
  - apply GetPersistenceKey_loop_leaves in Hrun. intros code ->. done.
  - intros fuel rc w0 r rest f Hnet Hf Hne Hfail.
    exists (attempt_removed w0 key_url rest (abspath w0 f)).
    apply (GetPersistenceKey_attempt_fails fuel key_url f rc w0 r rest); done.
Qed.

Lemma GetPersistenceKey_file_verified_or_absent_witness :
  GetPersistenceKey key_a four_wrong
  = (OsExit 1, snd (GetPersistenceKey key_a four_wrong))
  /\ (@OsExit unit 1 <> Timeout
      /\ (OsExit 1 = Ret tt ->
          exists f r pre data etag,
            local_filename key_a = Ret f
            /\ net four_wrong
               = pre ++ Served r :: net (snd (GetPersistenceKey key_a four_wrong))
            /\ ETag r = Some etag
            /\ files (snd (GetPersistenceKey key_a four_wrong))
                 !! abspath (snd (GetPersistenceKey key_a four_wrong)) f
               = Some data
            /\ multipart_etag_of data MULTIPART_BYTES = Ret etag)
      /\ (forall code, @OsExit unit 1 = OsExit code ->
          exists f, local_filename key_a = Ret f
                    /\ files (snd (GetPersistenceKey key_a four_wrong))
                         !! abspath (snd (GetPersistenceKey key_a four_wrong)) f
                       = None)
      /\ (forall fuel rc w0 r rest f,
          net w0 = Served r :: rest ->
          local_filename key_a = Ret f ->
          openable f = true ->
          checksum_fails r ->
          exists w2,
            files w2 !! abspath w2 f = None
            /\ GetPersistenceKey_loop (S fuel) key_a rc w0
               = if 3 <? rc + 1 then (OsExit 1, with_event w2 (Sleep 5))
                 else GetPersistenceKey_loop fuel key_a (rc + 1) w2)).
Proof.
  split; [vm_compute; reflexivity|].
  apply (GetPersistenceKey_file_verified_or_absent key_a four_wrong
           (snd (GetPersistenceKey key_a four_wrong)) (OsExit 1)).
  vm_compute. reflexivity.
Defined.

Example GetPersistenceKey_success_leaves_verified_file :
  GetPersistenceKey key_a three_wrong_one_right
  = (Ret tt,
     mkWorld []
       [Get key_a []; Get key_a []; Get key_a []; Get key_a []]
       "/srv" {[ "/srv/persistence/a.txt" := bytes_of_string "abc" ]} no_tar).
Proof. vm_compute. reflexivity. Qed.

Example GetPersistenceKey_abort_leaves_no_file :
  GetPersistenceKey key_a four_wrong
  = (OsExit 1,
     mkWorld []
       [Get key_a []; Get key_a []; Get key_a []; Get key_a []; Sleep 5]
       "/srv" ∅ no_tar).
Proof. vm_compute. reflexivity. Qed.

(** ** The local file name of a key *)

Lemma str_app_cons (c : ascii) (a b : string) :
  String c a +:+ b = String c (a +:+ b).
Proof. reflexivity. Qed.

Lemma startswith_app (p s : string) : Str.startswith p (p +:+ s) = true.
Proof.
  induction p as [|c p IH]; [reflexivity|].
  rewrite str_app_cons. cbn [Str.startswith]. by rewrite Ascii.eqb_refl.
Qed.

Lemma str_take_drop (n : nat) (s : string) : Str.take n s +:+ Str.drop n s = s.
Proof.
  revert s. induction n as [|n IH]; intros [|c s]; try reflexivity.
  cbn [Str.take Str.drop]. by rewrite str_app_cons, IH.
Qed.

Lemma find_cons_mismatch (sub : string) (c : ascii) (s : string) :
  Str.startswith sub (String c s) = false ->
  Str.find sub (String c s) = option_map S (Str.find sub s).
Proof. intros H. cbn [Str.find]. by rewrite H. Qed.

Lemma find_None_cons (sub : string) (c : ascii) (s : string) :
  Str.find sub (String c s) = None ->
  Str.startswith sub (String c s) = false /\ Str.find sub s = None.
Proof.
  cbn [Str.find]. destruct (Str.startswith sub (String c s)); [discriminate|].
  destruct (Str.find sub s); [discriminate|done].
Qed.

(** Where [old] does not occur, [replace] changes nothing. *)
Lemma replace_absent (old new s : string) :
  Str.find old s = None -> Str.replace_from O old new s = s.
Proof.
  induction s as [|c s IH]; intros Hfind.
  - destruct old; [discriminate|reflexivity].
  - apply find_None_cons in Hfind as [Hsw Hfind].
    cbn [Str.replace_from]. rewrite Hsw. by rewrite IH.
Qed.

Lemma replace_from_skip (old new pre s : string) :
  Str.replace_from (String.length pre) old new (pre +:+ s)
  = Str.replace_from O old new s.
Proof.
  induction pre as [|c pre IH]; [reflexivity|].
  rewrite str_app_cons. cbn [String.length Str.replace_from]. apply IH.
Qed.

(** A leading occurrence of a non-empty [old] is cut off, and the scan
    goes on behind it. *)
Lemma replace_leading (old rest : string) :
  old <> "" ->
  Str.replace old "" (old +:+ rest) = Str.replace old "" rest.
Proof.
  intros Hne. destruct old as [|c old]; [done|].
  unfold Str.replace. pose proof (startswith_app (String c old) rest) as Hsw.
  rewrite str_app_cons in *. cbn [Str.replace_from]. rewrite Hsw.
  change ("" +:+ ?x) with x. apply replace_from_skip.
Qed.

(** The name is the stripped rest of the URL behind the first
    ["TEST_NET_NAME/"], as long as the part cut off does not occur in that
    rest again. *)
Lemma local_filename_strips (key_url : string) (i : nat) :
  Str.find (TESTNET_NAME +:+ "/") key_url = Some i ->
  Str.find (Str.take (i + String.length (TESTNET_NAME +:+ "/")) key_url)
           (Str.drop (i + String.length (TESTNET_NAME +:+ "/")) key_url) = None ->
  local_filename key_url
  = Ret (Str.strip (Str.drop (i + String.length (TESTNET_NAME +:+ "/")) key_url)).
Proof.
  intros Hfind Habsent. unfold local_filename. rewrite Hfind.
  set (n := (i + String.length (TESTNET_NAME +:+ "/"))%nat) in *.
  do 2 f_equal.
  assert (Hne : Str.take n key_url <> "").
  { intros E. rewrite E in Habsent. destruct (Str.drop n key_url); discriminate. }
  rewrite <- (str_take_drop n key_url) at 2.
  rewrite replace_leading by done. by apply replace_absent.
Qed.

(** The bucket URL has no ["TEST_NET_NAME/"] of its own: the first one in
    a key URL is the first one of the key, 36 characters further on. *)
Lemma find_in_key_url (key : string) :
  Str.find (TESTNET_NAME +:+ "/") (getURL +:+ "/" +:+ key)
  = option_map (Nat.add 36) (Str.find (TESTNET_NAME +:+ "/") key).
Proof.
  cbv [String.append getURL BUCKET_NAME TESTNET_NAME].
  repeat (rewrite find_cons_mismatch by reflexivity).
  destruct (Str.find _ key); reflexivity.
Qed.

Lemma take_in_key_url (n : nat) (key : string) :
  Str.take (36 + n) (getURL +:+ "/" +:+ key) = getURL +:+ "/" +:+ Str.take n key.
Proof. reflexivity. Qed.

Lemma drop_in_key_url (n : nat) (key : string) :
  Str.drop (36 + n) (getURL +:+ "/" +:+ key) = Str.drop n key.
Proof. reflexivity. Qed.

(** C9 (as amended): for an object key that contains ["TEST_NET_NAME/"],
    the local relative path is what follows the first occurrence, with
    leading and trailing whitespace removed; this is stated for keys whose
    remainder does not contain the URL prefix that was cut off. *)
Theorem local_filename_of_key (key : string) (i : nat) :
  Str.find (TESTNET_NAME +:+ "/") key = Some i ->
  Str.find (getURL +:+ "/"
            +:+ Str.take (i + String.length (TESTNET_NAME +:+ "/")) key)
           (Str.drop (i + String.length (TESTNET_NAME +:+ "/")) key) = None ->
  local_filename (getURL +:+ "/" +:+ key)
  = Ret (Str.strip (Str.drop (i + String.length (TESTNET_NAME +:+ "/")) key)).
Proof.
  intros Hfind Habsent.
  set (n := (i + String.length (TESTNET_NAME +:+ "/"))%nat) in *.
  pose proof (local_filename_strips (getURL +:+ "/" +:+ key) (36 + i)) as H.
  rewrite find_in_key_url, Hfind in H.
  replace (36 + i + String.length (TESTNET_NAME +:+ "/"))%nat
    with (36 + n)%nat in H by (subst n; lia).
  rewrite take_in_key_url, drop_in_key_url in H.
  by apply H.
Qed.

Lemma local_filename_of_key_witness :
  Str.find (TESTNET_NAME +:+ "/") key_trailing_blank = Some 12%nat
  /\ Str.find (getURL +:+ "/"
               +:+ Str.take (12 + String.length (TESTNET_NAME +:+ "/"))
                     key_trailing_blank)
              (Str.drop (12 + String.length (TESTNET_NAME +:+ "/"))
                 key_trailing_blank) = None
  /\ local_filename (getURL +:+ "/" +:+ key_trailing_blank)
     = Ret (Str.strip
              (Str.drop (12 + String.length (TESTNET_NAME +:+ "/"))
                 key_trailing_blank)).
Proof.
  split_and!; [reflexivity|reflexivity|].
  apply (local_filename_of_key key_trailing_blank 12); reflexivity.
Defined.

(** C9 (as stated) fails: the remainder of this key ends in a blank and
    the derived path does not. *)
Lemma local_filename_not_plain_remainder :
  Str.find (TESTNET_NAME +:+ "/") key_trailing_blank = Some 12%nat
  /\ Str.drop (12 + String.length (TESTNET_NAME +:+ "/")) key_trailing_blank
     = "persistence/a.txt "
  /\ local_filename (getURL +:+ "/" +:+ key_trailing_blank)
     = Ret "persistence/a.txt"
  /\ local_filename (getURL +:+ "/" +:+ key_trailing_blank)
     <> Ret (Str.drop (12 + String.length (TESTNET_NAME +:+ "/"))
               key_trailing_blank).
Proof. split_and!; [reflexivity..|]. vm_compute. discriminate. Qed.

(** [replace] removes every occurrence of the part cut off, so a key that
    repeats the URL prefix loses it twice. *)
Example local_filename_repeating_prefix :
  local_filename (getURL +:+ "/" +:+ key_repeating_prefix) = Ret "x/b".
Proof. vm_compute. reflexivity. Qed.

(** ** The upload lock and the phase controller *)

Lemma UploadLock_served (w : World) (r : Response) (rest : list Reply) :
  net w = Served r :: rest ->
  UploadLock w = (Ret (status_code r =? 200), answered w (Get lock_url []) rest).
Proof.
  intros Hnet. unfold UploadLock, bind, requests_get. rewrite Hnet.
  by destruct (status_code r =? 200).
Qed.

Lemma UploadLock_raises (w w1 : World) (e : exn) :
  UploadLock w = (Raise e, w1) ->
  e = ConnectionError /\ (net w = [] \/ exists rest, net w = NoReply :: rest).
Proof.
  unfold UploadLock, bind, requests_get.
  destruct (net w) as [|[|r] rest]; intros H.
  - injection H as <- _. eauto.
  - injection H as <- _. eauto.
  - by destruct (status_code r =? 200).
Qed.

(** C10: a response whose status is not 200 makes the lock check return
    False, whatever the status; the check raises only when no response
    arrives; and behind a non-200 answer the pass goes on into the snapshot
    download. *)
Theorem UploadLock_not_200 (cfg : Config) (w : World) (r : Response)
    (rest : list Reply) :
  net w = Served r :: rest ->
  status_code r <> 200 ->
  UploadLock w = (Ret false, answered w (Get lock_url []) rest)
  /\ run_pass cfg w = snapshot_then_delta cfg (answered w (Get lock_url []) rest)
  /\ (forall w0 e w1,
        UploadLock w0 = (Raise e, w1) ->
        e = ConnectionError
        /\ (net w0 = [] \/ exists rest0, net w0 = NoReply :: rest0)).
Proof.
  intros Hnet Hcode.
  assert (Hlock : UploadLock w = (Ret false, answered w (Get lock_url []) rest)).
  { rewrite (UploadLock_served w r rest Hnet).
    by destruct (Z.eqb_spec (status_code r) 200). }
  split_and!; [done| |intros w0 e w1; apply UploadLock_raises].
  unfold run_pass, bind. by rewrite Hlock.
Qed.

Lemma UploadLock_not_200_witness :
  net lock_check_fails_on_server
  = Served (status_response 503)
    :: [Served (listing_response ["incremental/TEST_NET_NAME/persistence/a.txt"] "false");
        Served abc_right]
  /\ status_code (status_response 503) <> 200
  /\ (UploadLock lock_check_fails_on_server
      = (Ret false,
         answered lock_check_fails_on_server (Get lock_url [])
           [Served (listing_response ["incremental/TEST_NET_NAME/persistence/a.txt"] "false");
            Served abc_right])
      /\ run_pass cfg0 lock_check_fails_on_server
         = snapshot_then_delta cfg0
             (answered lock_check_fails_on_server (Get lock_url [])
                [Served (listing_response ["incremental/TEST_NET_NAME/persistence/a.txt"] "false");
                 Served abc_right])
      /\ (forall w0 e w1,
            UploadLock w0 = (Raise e, w1) ->
            e = ConnectionError
            /\ (net w0 = [] \/ exists rest0, net w0 = NoReply :: rest0))).
Proof.
  split; [reflexivity|split; [discriminate|]].
  apply (UploadLock_not_200 cfg0 lock_check_fails_on_server (status_response 503));
    [reflexivity|discriminate].
Defined.

(** Behind the server error the snapshot is listed and downloaded. *)
Example snapshot_read_after_503 :
  trace (snd (run_pass cfg0 lock_check_fails_on_server))
  = [ Get lock_url [];
      Get getURL (listing_params "incremental/TEST_NET_NAME" "");
      Get key_a [];
      Get lock_url [] ]
  /\ files (snd (run_pass cfg0 lock_check_fails_on_server))
     = {[ "/srv/persistence/a.txt" := bytes_of_string "abc" ]}.
Proof. split; vm_compute; reflexivity. Qed.

(** C7: when the lock check that follows the snapshot download reports
    locked, the pass ends there: nothing of the state-delta download has
    happened (the world is the one after the snapshot plus the lock
    request), and the loop starts over with a new first lock check. *)
Theorem recheck_locked_restarts (cfg : Config) (w w1 w2 : World)
    (r : Response) (rest : list Reply) :
  UploadLock w = (Ret false, w1) ->
  GetEntirePersistenceFromS3 cfg w1 = (Ret tt, w2) ->
  net w2 = Served r :: rest ->
  status_code r = 200 ->
  UploadLock w2 = (Ret true, answered w2 (Get lock_url []) rest)
  /\ run_pass cfg w = (Ret Continue, answered w2 (Get lock_url []) rest)
  /\ (forall fuel,
        run (S fuel) cfg w = run fuel cfg (answered w2 (Get lock_url []) rest)).
Proof.
  intros Hlock1 Hsnap Hnet Hcode.
  assert (Hlock2 : UploadLock w2 = (Ret true, answered w2 (Get lock_url []) rest)).
  { rewrite (UploadLock_served w2 r rest Hnet), Hcode. reflexivity. }
  assert (Hpass : run_pass cfg w = (Ret Continue, answered w2 (Get lock_url []) rest)).
  { unfold run_pass, bind at 1. rewrite Hlock1. cbn [Bool.eqb].
    unfold snapshot_then_delta, bind at 1. rewrite Hsnap.
    unfold bind at 1. rewrite Hlock2. reflexivity. }
  split_and!; [done|done|].
  intros fuel. cbn [run]. by rewrite Hpass.
Qed.

Lemma recheck_locked_restarts_witness :
  UploadLock locked_after_snapshot = (Ret false, locked_after_snapshot_checked)
  /\ GetEntirePersistenceFromS3 cfg0 locked_after_snapshot_checked
     = (Ret tt, locked_after_snapshot_downloaded)
  /\ net locked_after_snapshot_downloaded = [Served (status_response 200)]
  /\ status_code (status_response 200) = 200
  /\ (UploadLock locked_after_snapshot_downloaded
      = (Ret true, answered locked_after_snapshot_downloaded (Get lock_url []) [])
      /\ run_pass cfg0 locked_after_snapshot
         = (Ret Continue,
            answered locked_after_snapshot_downloaded (Get lock_url []) [])
      /\ (forall fuel,
            run (S fuel) cfg0 locked_after_snapshot
            = run fuel cfg0
                (answered locked_after_snapshot_downloaded (Get lock_url []) []))).
Proof.
  split; [vm_compute; reflexivity|].
  split; [vm_compute; reflexivity|].
  split; [vm_compute; reflexivity|].
  split; [reflexivity|].
  apply (recheck_locked_restarts cfg0 locked_after_snapshot
           locked_after_snapshot_checked locked_after_snapshot_downloaded
           (status_response 200) []);
    vm_compute; reflexivity.
Defined.

(** In that pass the snapshot is listed and fetched, the lock is checked
    again, and no request for the state-delta prefix is made. *)
Example locked_after_snapshot_pass :
  run_pass cfg0 locked_after_snapshot
  = (Ret Continue,
     mkWorld []
       [ Get lock_url [];
         Get getURL (listing_params "incremental/TEST_NET_NAME" "");
         Get key_a [];
         Get lock_url [] ]
       "/srv" {[ "/srv/persistence/a.txt" := bytes_of_string "abc" ]} no_tar).
Proof. vm_compute. reflexivity. Qed.

(** ** A listing page without entries *)

Lemma list_loop_empty_page (cfg : Config) (url prefix MARKER : string)
    (acc : list string) (fuel : nat) (w : World) (r : Response)
    (rest : list Reply) (tree : Element) :
  net w = Served r :: rest ->
  xml r = Some tree ->
  drop 5 (children_of tree) = [] ->
  list_loop (S fuel) cfg url prefix MARKER acc w
  = (Ret (inl 1), answered w (Get url (listing_params prefix MARKER)) rest).
Proof.
  intros Hnet Hxml Hempty. cbn [list_loop]. unfold bind at 1, requests_get.
  rewrite Hnet. unfold bind at 1, lift at 1. rewrite Hxml, Hempty. reflexivity.
Qed.

Lemma GetAllObjectsFromS3_code (cfg : Config) (url folderName : string)
    (w w' : World) (code : Z) :
  list_loop (S (length (net w))) cfg url (listing_prefix folderName) "" [] w
  = (Ret (inl code), w') ->
  GetAllObjectsFromS3 cfg url folderName w = (Ret code, w').
Proof. intros H. unfold GetAllObjectsFromS3, bind. by rewrite H. Qed.

(** C3 (as amended): a listing page without entries makes the lister
    return the code 1, at whatever page, and no download is started.  In
    the full-snapshot phase the caller answers the code with [exit(1)],
    which [run] does not catch: the process ends with status 1, without a
    pause and without a new pass.  In the state-delta phase the caller does
    not look at the code and goes on to unpack. *)
Theorem empty_listing_page (cfg : Config) (r : Response) (tree : Element) :
  xml r = Some tree ->
  drop 5 (children_of tree) = [] ->
  (forall url prefix MARKER acc fuel w rest,
      net w = Served r :: rest ->
      list_loop (S fuel) cfg url prefix MARKER acc w
      = (Ret (inl 1), answered w (Get url (listing_params prefix MARKER)) rest))
  /\ (forall url folderName w rest,
        net w = Served r :: rest ->
        GetAllObjectsFromS3 cfg url folderName w
        = (Ret 1,
           answered w (Get url (listing_params (listing_prefix folderName) "")) rest))
  /\ (forall fuel w0 w1 wd w2,
        UploadLock w0 = (Ret false, w1) ->
        (CleanupDir (STORAGE_PATH cfg +:+ "/persistence") ;;;
         CreateAndChangeDir (STORAGE_PATH cfg)) w1 = (Ret tt, wd) ->
        GetAllObjectsFromS3 cfg getURL PERSISTENCE_SNAPSHOT_NAME wd = (Ret 1, w2) ->
        GetEntirePersistenceFromS3 cfg w1 = (SystemExit 1, w2)
        /\ run (S fuel) cfg w0 = (SystemExit 1, w2))
  /\ (forall w1 wd w2,
        CleanupCreateAndChangeDir (STORAGE_PATH cfg +:+ "/StateDeltaFromS3") w1
        = (Ret tt, wd) ->
        GetAllObjectsFromS3 cfg getURL STATEDELTA_DIFF_NAME wd = (Ret 1, w2) ->
        GetStateDeltaFromS3 cfg w1 = ExtractAllGzippedObjects w2).
Proof.
  intros Hxml Hempty. split_and!.
  - intros. by apply (list_loop_empty_page _ _ _ _ _ _ _ r rest tree).
  - intros url folderName w rest Hnet. apply GetAllObjectsFromS3_code.
    by apply (list_loop_empty_page _ _ _ _ _ _ _ r rest tree).
  - intros fuel w0 w1 wd w2 Hlock Hdirs Hlist.
    assert (Hsnap : GetEntirePersistenceFromS3 cfg w1 = (SystemExit 1, w2)).
    { unfold GetEntirePersistenceFromS3. unfold bind at 1.
      unfold bind at 1 in Hdirs.
      destruct (CleanupDir _ w1) as [[[]| | | |] wc]; try discriminate.
      unfold bind at 1. rewrite Hdirs. unfold bind at 1. rewrite Hlist.
      reflexivity. }
    split; [done|].
    cbn [run]. unfold run_pass, bind at 1. rewrite Hlock. cbn [Bool.eqb].
    unfold snapshot_then_delta, bind at 1. rewrite Hsnap. reflexivity.
  - intros w1 wd w2 Hdirs Hlist.
    unfold GetStateDeltaFromS3. unfold bind at 1. rewrite Hdirs.
    unfold bind at 1. rewrite Hlist. reflexivity.
Qed.

Lemma empty_listing_page_witness :
  xml (listing_response [] "false") = Some (listing [] "false")
  /\ drop 5 (children_of (listing [] "false")) = []
  /\ ((forall url prefix MARKER acc fuel w rest,
         net w = Served (listing_response [] "false") :: rest ->
         list_loop (S fuel) cfg0 url prefix MARKER acc w
         = (Ret (inl 1), answered w (Get url (listing_params prefix MARKER)) rest))
      /\ (forall url folderName w rest,
            net w = Served (listing_response [] "false") :: rest ->
            GetAllObjectsFromS3 cfg0 url folderName w
            = (Ret 1,
               answered w
                 (Get url (listing_params (listing_prefix folderName) "")) rest))
      /\ (forall fuel w0 w1 wd w2,
            UploadLock w0 = (Ret false, w1) ->
            (CleanupDir (STORAGE_PATH cfg0 +:+ "/persistence") ;;;
             CreateAndChangeDir (STORAGE_PATH cfg0)) w1 = (Ret tt, wd) ->
            GetAllObjectsFromS3 cfg0 getURL PERSISTENCE_SNAPSHOT_NAME wd
            = (Ret 1, w2) ->
            GetEntirePersistenceFromS3 cfg0 w1 = (SystemExit 1, w2)
            /\ run (S fuel) cfg0 w0 = (SystemExit 1, w2))
      /\ (forall w1 wd w2,
            CleanupCreateAndChangeDir (STORAGE_PATH cfg0 +:+ "/StateDeltaFromS3") w1
            = (Ret tt, wd) ->
            GetAllObjectsFromS3 cfg0 getURL STATEDELTA_DIFF_NAME wd = (Ret 1, w2) ->
            GetStateDeltaFromS3 cfg0 w1 = ExtractAllGzippedObjects w2)).
Proof.
  split; [reflexivity|]. split; [reflexivity|].
  apply (empty_listing_page cfg0 (listing_response [] "false") (listing [] "false"));
    reflexivity.
Defined.

(** C3 (as stated) fails in the full-snapshot phase: with an empty snapshot
    listing the process ends with status 1 after the listing request; there
    is no pause and no second pass. *)
Lemma empty_snapshot_listing_ends_process :
  drop 5 (children_of (listing [] "false")) = []
  /\ run 3 cfg0 snapshot_listing_empty
     = (SystemExit 1,
        mkWorld []
          [ Get lock_url [];
            Get getURL (listing_params "incremental/TEST_NET_NAME" "") ]
          "/srv" ∅ no_tar)
  /\ ~ In (Sleep 5) (trace (snd (run 3 cfg0 snapshot_listing_empty))).
Proof.
  split; [reflexivity|]. split; [vm_compute; reflexivity|].
  vm_compute. intros [H|[H|[]]]; discriminate.
Qed.

(** In the state-delta phase the same listing lets the run finish with
    status 0. *)
Example empty_delta_listing_finishes :
  run 3 cfg0 delta_listing_empty
  = (SystemExit 0,
     mkWorld []
       [ Get lock_url [];
         Get getURL (listing_params "incremental/TEST_NET_NAME" "");
         Get key_a [];
         Get lock_url [];
         Get getURL (listing_params "statedelta/TEST_NET_NAME" "") ]
       "/srv/StateDeltaFromS3"
       {[ "/srv/persistence/a.txt" := bytes_of_string "abc" ]} no_tar).
Proof. vm_compute. reflexivity. Qed.

(** ** Pagination *)

Lemma last_cons_cons {A} (a b : A) (l : list A) (d : A) :
  List.last (a :: b :: l) d = List.last (b :: l) d.
Proof. reflexivity. Qed.

Lemma last_indep {A} (l : list A) (d d' : A) : l <> [] -> List.last l d = List.last l d'.
Proof.
  induction l as [|a [|b l] IH]; intros Hne; [done|reflexivity|].
  rewrite !last_cons_cons. by apply IH.
Qed.

Lemma last_cons {A} (a : A) (l : list A) (d : A) : List.last (a :: l) d = List.last l a.
Proof.
  destruct l as [|b l]; [reflexivity|].
  rewrite last_cons_cons. by apply last_indep.
Qed.

Lemma scan_page_keys (cfg : Config) (url : string) :
  forall (entries : list Element) (keys acc : list string) (lastkey : string),
    keys_of entries = Some keys ->
    scan_page cfg url entries acc lastkey
    = Ret (acc ++ surviving cfg url keys, List.last keys lastkey).
Proof.
  induction entries as [|key rest IH]; intros keys acc lastkey Hkeys.
  - injection Hkeys as <-. unfold surviving. cbn. by rewrite app_nil_r.
  - cbn [keys_of] in Hkeys. cbn [scan_page].
    destruct (entry_key_url key) as [key_url| | | |]; try discriminate.
    destruct (keys_of rest) as [keys'|]; [|discriminate].
    injection Hkeys as <-. cbn [and_then].
    rewrite (IH keys' _ key_url eq_refl). rewrite last_cons.
    unfold surviving. cbn [List.filter].
    destruct (kept cfg key_url); cbn [map]; [|done].
    by rewrite <- app_assoc.
Qed.

(** One request of the paging loop for a page with entries. *)
Lemma list_loop_page (cfg : Config) (url prefix MARKER : string)
    (acc : list string) (fuel : nat) (w : World) (r : Response)
    (rest : list Reply) (keys : list string) (truncated : bool) :
  net w = Served r :: rest ->
  page_of r = Some (keys, truncated) ->
  keys <> [] ->
  list_loop (S fuel) cfg url prefix MARKER acc w
  = if truncated then
      list_loop fuel cfg url prefix (List.last keys "") (acc ++ surviving cfg url keys)
        (answered w (Get url (listing_params prefix MARKER)) rest)
    else
      (Ret (inr (acc ++ surviving cfg url keys)),
       answered w (Get url (listing_params prefix MARKER)) rest).
Proof.
  intros Hnet Hpage Hne. unfold page_of in Hpage.
  destruct (xml r) as [tree|] eqn:Hxml; [|discriminate].
  destruct (keys_of (drop 5 (children_of tree))) as [keys'|] eqn:Hkeys;
    [|discriminate].
  destruct (children_of tree !! 4%nat) as [flag|] eqn:Hflag; [|discriminate].
  injection Hpage as -> <-.
  cbn [list_loop]. unfold bind at 1, requests_get. rewrite Hnet.
  unfold bind at 1, lift at 1. rewrite Hxml.
  destruct (drop 5 (children_of tree)) as [|e entries] eqn:Hdrop.
  { injection Hkeys as <-. done. }
  unfold bind at 1, lift at 1.
  rewrite (scan_page_keys cfg url (e :: entries) keys acc "" Hkeys).
  unfold bind at 1, lift at 1. rewrite Hflag.
  destruct (decide (text_of flag = Some "true")) as [Ht|Ht].
  - by rewrite bool_decide_eq_true_2.
  - by rewrite bool_decide_eq_false_2.
Qed.

Lemma list_loop_pages (cfg : Config) (url prefix : string) :
  forall (pages : list (list string * bool)) (rs : list Response)
         (w : World) (rest : list Reply) (MARKER : string)
         (acc : list string) (fuel : nat),
    net w = map Served rs ++ rest ->
    Forall2 (fun r p => page_of r = Some p /\ fst p <> []) rs pages ->
    only_last_final pages = true ->
    (length pages <= fuel)%nat ->
    list_loop fuel cfg url prefix MARKER acc w
    = (Ret (inr (acc ++ concat (map (fun p => surviving cfg url (fst p)) pages))),
       mkWorld rest (trace w ++ listing_requests url prefix MARKER pages)
         (cwd w) (files w) (tarfile w)).
Proof.
  induction pages as [|[keys truncated] pages IH];
    intros rs w rest MARKER acc fuel Hnet Hpages Hlast Hfuel; [discriminate|].
  inversion Hpages as [|r p rs' ps [Hpage Hne] Hrest]; subst.
  destruct fuel as [|fuel]; [cbn in Hfuel; lia|].
  cbn [map app] in Hnet. cbn [fst] in Hne.
  rewrite (list_loop_page cfg url prefix MARKER acc fuel w r _ keys truncated
             Hnet Hpage Hne).
  destruct pages as [|p' pages].
  - cbn in Hlast. destruct truncated; [discriminate|].
    inversion Hrest; subst. cbn. by rewrite app_nil_r.
  - cbn [only_last_final snd] in Hlast.
    apply andb_prop in Hlast as [-> Hlast].
    rewrite (IH rs' _ rest _ _ fuel); [|reflexivity|done|done|cbn in *; lia].
    unfold answered. cbn [trace cwd files tarfile map concat fst].
    rewrite <- !app_assoc. reflexivity.
Qed.

(** C8: for K listing pages, each with at least one entry, the first K-1
    flagged truncated and the last not, the lister sends exactly K
    requests, the first with the empty marker and each later one with the
    last key listed on the page before, stops behind the last page, and
    hands the key URLs of the entries that pass the filters, page after
    page, to the download stage. *)
Theorem listing_pagination (cfg : Config) (url folderName : string)
    (rs : list Response) (pages : list (list string * bool))
    (w : World) (rest : list Reply) :
  net w = map Served rs ++ rest ->
  Forall2 (fun r p => page_of r = Some p /\ fst p <> []) rs pages ->
  only_last_final pages = true ->
  list_loop (S (length (net w))) cfg url (listing_prefix folderName) "" [] w
  = (Ret (inr (concat (map (fun p => surviving cfg url (fst p)) pages))),
     mkWorld rest
       (trace w ++ listing_requests url (listing_prefix folderName) "" pages)
       (cwd w) (files w) (tarfile w))
  /\ length (listing_requests url (listing_prefix folderName) "" pages)
     = length pages
  /\ GetAllObjectsFromS3 cfg url folderName w
     = (pool_map (concat (map (fun p => surviving cfg url (fst p)) pages)) ;;;
        ret 0)
         (mkWorld rest
            (trace w ++ listing_requests url (listing_prefix folderName) "" pages)
            (cwd w) (files w) (tarfile w)).
Proof.
  intros Hnet Hpages Hlast.
  assert (Hlen : (length pages <= S (length (net w)))%nat).
  { rewrite Hnet, length_app, length_map, (Forall2_length _ _ _ Hpages). lia. }
  pose proof (list_loop_pages cfg url (listing_prefix folderName) pages rs w rest
                "" [] (S (length (net w))) Hnet Hpages Hlast Hlen) as Hloop.
  cbn [app] in Hloop.
  split_and!; [done| |].
  - unfold listing_requests, markers_from. cbn [map length].
    rewrite !length_map.
    destruct pages as [|p pages]; [discriminate|].
    clear. revert p. induction pages as [|q pages IH]; intros p; [reflexivity|].
    cbn [removelast length]. f_equal. apply IH.
  - unfold GetAllObjectsFromS3. unfold bind at 1. rewrite Hloop. reflexivity.
Qed.

Lemma listing_pagination_witness :
  net (world_of (map Served two_pages) ∅) = map Served two_pages ++ []
  /\ Forall2 (fun r p => page_of r = Some p /\ fst p <> [])
       two_pages two_pages_listed
  /\ only_last_final two_pages_listed = true
  /\ (list_loop (S (length (net (world_of (map Served two_pages) ∅)))) cfg0 getURL
        (listing_prefix PERSISTENCE_SNAPSHOT_NAME) "" []
        (world_of (map Served two_pages) ∅)
      = (Ret (inr (concat (map (fun p => surviving cfg0 getURL (fst p))
                             two_pages_listed))),
         mkWorld []
           (trace (world_of (map Served two_pages) ∅)
            ++ listing_requests getURL (listing_prefix PERSISTENCE_SNAPSHOT_NAME)
                 "" two_pages_listed)
           (cwd (world_of (map Served two_pages) ∅))
           (files (world_of (map Served two_pages) ∅))
           (tarfile (world_of (map Served two_pages) ∅)))
      /\ length (listing_requests getURL
                   (listing_prefix PERSISTENCE_SNAPSHOT_NAME) "" two_pages_listed)
         = length two_pages_listed
      /\ GetAllObjectsFromS3 cfg0 getURL PERSISTENCE_SNAPSHOT_NAME
           (world_of (map Served two_pages) ∅)
         = (pool_map (concat (map (fun p => surviving cfg0 getURL (fst p))
                                two_pages_listed)) ;;;
            ret 0)
             (mkWorld []
                (trace (world_of (map Served two_pages) ∅)
                 ++ listing_requests getURL
                      (listing_prefix PERSISTENCE_SNAPSHOT_NAME) "" two_pages_listed)
                (cwd (world_of (map Served two_pages) ∅))
                (files (world_of (map Served two_pages) ∅))
                (tarfile (world_of (map Served two_pages) ∅)))).
Proof.
  split; [reflexivity|].
  split; [repeat constructor; discriminate|].
  split; [reflexivity|].
  apply (listing_pagination cfg0 getURL PERSISTENCE_SNAPSHOT_NAME two_pages
           two_pages_listed (world_of (map Served two_pages) ∅) []).
  - reflexivity.
  - repeat constructor; discriminate.
  - reflexivity.
Defined.

(** On the two pages: two requests, the second with the last key of the
    first page as marker (a key the filter dropped does not count as last
    here, the last listed one does), and the two kept key URLs in order. *)
Example two_pages_listing :
  listing_requests getURL (listing_prefix PERSISTENCE_SNAPSHOT_NAME) ""
    two_pages_listed
  = [ Get getURL (listing_params "incremental/TEST_NET_NAME" "");
      Get getURL (listing_params "incremental/TEST_NET_NAME"
                    "incremental/TEST_NET_NAME/persistence/a.txt") ]
  /\ concat (map (fun p => surviving cfg0 getURL (fst p)) two_pages_listed)
     = [ key_a; getURL +:+ "/incremental/TEST_NET_NAME/persistence/b.txt" ].
Proof. split; vm_compute; reflexivity. Qed.

(** ** The worker pool *)

(** Whatever the tasks do, the pool stage itself only returns or is cut
    short by [os._exit]: an exception of a task never leaves it. *)
Lemma pool_map_outcome (tasks : list string) :
  forall w : World,
    fst (pool_map tasks w) = Ret tt
    \/ exists code, fst (pool_map tasks w) = OsExit code.
Proof.
  induction tasks as [|key_url tasks IH]; intros w; [by left|].
  cbn [pool_map].
  destruct (GetPersistenceKey key_url w) as [o w'] eqn:Hrun.
  destruct o as [[]|e|c|c|]; try apply IH.
  - right. by exists c.
  - exfalso.
    pose proof (GetPersistenceKey_loop_ends key_url 4 0 w) as Hends.
    unfold GetPersistenceKey in Hrun. rewrite Hrun in Hends.
    apply Hends; [lia|lia|reflexivity].
Qed.

(** C2, at a task whose request gets no response: [GetPersistenceKey]
    raises, the pool keeps the exception in a future nobody reads, and
    [GetAllObjectsFromS3] returns 0 as after a complete download although
    the file was never written. *)
Theorem GetAllObjectsFromS3_returns_0_after_failed_task :
  GetPersistenceKey key_a (world_of [NoReply] ∅)
  = (Raise ConnectionError, mkWorld [] [Get key_a []] "/srv" ∅ no_tar)
  /\ GetAllObjectsFromS3 cfg0 getURL PERSISTENCE_SNAPSHOT_NAME object_get_unanswered
     = (Ret 0,
        mkWorld []
          [ Get getURL (listing_params "incremental/TEST_NET_NAME" "");
            Get key_a [] ]
          "/srv" ∅ no_tar)
  /\ files (snd (GetAllObjectsFromS3 cfg0 getURL PERSISTENCE_SNAPSHOT_NAME
                   object_get_unanswered))
       !! "/srv/persistence/a.txt" = None.
Proof. split_and!; vm_compute; reflexivity. Qed.

(** A task that dies between opening the file and verifying it leaves the
    file behind, empty, and the stage still returns 0. *)
Example GetAllObjectsFromS3_returns_0_with_unverified_file :
  GetAllObjectsFromS3 cfg0 getURL PERSISTENCE_SNAPSHOT_NAME object_without_length
  = (Ret 0,
     mkWorld []
       [ Get getURL (listing_params "incremental/TEST_NET_NAME" "");
         Get key_a [] ]
       "/srv" {[ "/srv/persistence/a.txt" := [] ]} no_tar).
Proof. vm_compute. reflexivity. Qed.

(** ** The modelled loops end within their fuel *)

Lemma scan_page_outcome (cfg : Config) (url : string) :
  forall (entries : list Element) (acc : list string) (lastkey : string),
    (exists res, scan_page cfg url entries acc lastkey = Ret res)
    \/ (exists e, scan_page cfg url entries acc lastkey = Raise e).
Proof.
  induction entries as [|key rest IH]; intros acc lastkey; [left; by eexists|].
  cbn [scan_page]. unfold entry_key_url.
  destruct (children_of key) as [|k ks]; [right; by eexists|].
  destruct (text_of k) as [key_url|]; [|right; by eexists].
  cbn [and_then]. apply IH.
Qed.

(** Every request uses up a reply, so the paging loop is over before the
    fuel that [GetAllObjectsFromS3] gives it. *)
Lemma list_loop_ends (cfg : Config) (url prefix : string) :
  forall (fuel : nat) (MARKER : string) (acc : list string) (w : World),
    (length (net w) < fuel)%nat ->
    fst (list_loop fuel cfg url prefix MARKER acc w) <> Timeout.
Proof.
  induction fuel as [|fuel IH]; intros MARKER acc w Hfuel; [lia|].
  cbn [list_loop]. unfold bind at 1, requests_get.
  destruct (net w) as [|[|r] rest] eqn:Hnet; [done|done|].
  unfold bind at 1, lift at 1.
  destruct (xml r) as [tree|]; [|done].
  destruct (drop 5 (children_of tree)) as [|e entries]; [done|].
  unfold bind at 1, lift at 1.
  destruct (scan_page_outcome cfg url (e :: entries) acc "") as [[[l k] ->]|[x ->]];
    [|done].
  unfold bind at 1, lift at 1.
  destruct (children_of tree !! 4%nat) as [flag|]; [|done].
  destruct (decide (text_of flag = Some "true")); [|done].
  apply IH. cbn in *. lia.
Qed.

Lemma GetAllObjectsFromS3_ends (cfg : Config) (url folderName : string) (w : World) :
  fst (GetAllObjectsFromS3 cfg url folderName w) <> Timeout.
Proof.
  unfold GetAllObjectsFromS3, bind at 1.
  pose proof (list_loop_ends cfg url (listing_prefix folderName)
                (S (length (net w))) "" [] w (Nat.lt_succ_diag_r _)) as Hends.
  destruct (list_loop _ _ _ _ _ _ w) as [[[code|l]| | | |] w']; try done.
  unfold bind.
  destruct (pool_map_outcome l w') as [H|[c H]];
    destruct (pool_map l w') as [o w'']; cbn in H; by subst.
Qed.

(** A key that names a folder: the derived name ends in a slash, [open]
    raises in the worker, and the pool goes on. *)
Example folder_key_task_raises :
  local_filename (getURL +:+ "/incremental/TEST_NET_NAME/persistence/")
  = Ret "persistence/"
  /\ fst (GetPersistenceKey (getURL +:+ "/incremental/TEST_NET_NAME/persistence/")
            (world_of [Served abc_right] ∅))
     = Raise OSError.
Proof. split; vm_compute; reflexivity. Qed.

(** * Further properties of the code *)

(** ** calculate_multipart_etag: part boundaries *)

Lemma chunked_count (n : Z) (data : list byte) (chunks : list (list byte)) :
  0 < n ->
  chunked n data chunks ->
  Z.of_nat (length chunks) = (Z.of_nat (length data) + n - 1) / n.
Proof.
  intros Hn. induction 1 as [c Hc Hl|c rest chunks Hl Hch IH].
  - assert (0 < Z.of_nat (length c)) by (destruct c; [done|cbn; lia]).
    cbn [length]. apply Z.div_unique with (r := Z.of_nat (length c) - 1); lia.
  - rewrite length_app. cbn [length].
    replace (Z.of_nat (length c + length rest) + n - 1)
      with (Z.of_nat (length rest) + n - 1 + 1 * n) by lia.
    rewrite Z.div_add by lia. lia.
Qed.

(** X1: a non-empty file that fits into one chunk, a file of exactly
    [chunk_size] bytes included, gets the plain quoted MD5 of its content,
    without a part count. *)
Theorem calculate_multipart_etag_single_part
    (w : World) (source_path : string) (chunk_size : Z) (data : list byte) :
  files w !! abspath w source_path = Some data ->
  data <> [] ->
  Z.of_nat (length data) <= chunk_size ->
  calculate_multipart_etag source_path chunk_size w
  = (Ret (quoted (MD5.hex (MD5.md5 data))), w).
Proof.
  intros Hfile Hne Hlen.
  assert (Hpos : 0 < chunk_size) by (destruct data; [done|cbn in Hlen; lia]).
  destruct (multipart_etag_of_chunked data chunk_size Hne Hpos)
    as (chunks & Hch & Hetag).
  rewrite (chunked_unique chunk_size data chunks [data] Hpos Hch) in Hetag
    by (by apply chunked_last).
  unfold calculate_multipart_etag. by rewrite Hfile, Hetag.
Qed.

Lemma calculate_multipart_etag_single_part_witness :
  files (world_of [] {[ "/srv/f" := bytes_of_string "abcdefgh" ]})
    !! abspath (world_of [] {[ "/srv/f" := bytes_of_string "abcdefgh" ]}) "f"
  = Some (bytes_of_string "abcdefgh")
  /\ bytes_of_string "abcdefgh" <> []
  /\ Z.of_nat (length (bytes_of_string "abcdefgh")) <= 8
  /\ calculate_multipart_etag "f" 8
       (world_of [] {[ "/srv/f" := bytes_of_string "abcdefgh" ]})
     = (Ret (quoted (MD5.hex (MD5.md5 (bytes_of_string "abcdefgh")))),
        world_of [] {[ "/srv/f" := bytes_of_string "abcdefgh" ]}).
Proof.
  split; [vm_compute; reflexivity|]. split; [discriminate|].
  split; [vm_compute; discriminate|].
  apply (calculate_multipart_etag_single_part
           (world_of [] {[ "/srv/f" := bytes_of_string "abcdefgh" ]}) "f" 8
           (bytes_of_string "abcdefgh")).
  - vm_compute. reflexivity.
  - discriminate.
  - vm_compute. discriminate.
Defined.

(** X2: a file longer than one chunk gets the multipart form, and the count
    behind the dash is the file length divided by the chunk size, rounded
    up; it is at least 2. *)
Theorem calculate_multipart_etag_part_count
    (w : World) (source_path : string) (chunk_size : Z) (data : list byte) :
  files w !! abspath w source_path = Some data ->
  0 < chunk_size ->
  chunk_size < Z.of_nat (length data) ->
  exists chunks,
    concat chunks = data
    /\ Z.of_nat (length chunks)
       = (Z.of_nat (length data) + chunk_size - 1) / chunk_size
    /\ (2 <= length chunks)%nat
    /\ calculate_multipart_etag source_path chunk_size w
       = (Ret (quoted (MD5.hex (MD5.md5 (concat (map MD5.md5 chunks)))
                       +:+ "-" +:+ Str.of_nat (length chunks))), w).
Proof.
  intros Hfile Hpos Hlen.
  assert (Hne : data <> []) by (destruct data; [cbn in Hlen; lia|done]).
  destruct (multipart_etag_of_chunked data chunk_size Hne Hpos)
    as (chunks & Hch & Hetag).
  exists chunks.
  destruct (chunked_nonempty _ _ _ Hch) as (_ & _ & Hcat).
  pose proof (chunked_count _ _ _ Hpos Hch) as Hcount.
  assert (Htwo : (2 <= length chunks)%nat).
  { assert (2 <= (Z.of_nat (length data) + chunk_size - 1) / chunk_size); [|lia].
    apply Z.div_le_lower_bound; lia. }
  split_and!; [done|done|done|].
  unfold calculate_multipart_etag. rewrite Hfile, Hetag.
  by rewrite new_etag_multi by lia.
Qed.

Lemma calculate_multipart_etag_part_count_witness :
  files (world_of [] {[ "/srv/f" := bytes_of_string "abcdefghi" ]})
    !! abspath (world_of [] {[ "/srv/f" := bytes_of_string "abcdefghi" ]}) "f"
  = Some (bytes_of_string "abcdefghi")
  /\ 0 < 4
  /\ 4 < Z.of_nat (length (bytes_of_string "abcdefghi"))
  /\ exists chunks,
       concat chunks = bytes_of_string "abcdefghi"
       /\ Z.of_nat (length chunks)
          = (Z.of_nat (length (bytes_of_string "abcdefghi")) + 4 - 1) / 4
       /\ (2 <= length chunks)%nat
       /\ calculate_multipart_etag "f" 4
            (world_of [] {[ "/srv/f" := bytes_of_string "abcdefghi" ]})
          = (Ret (quoted (MD5.hex (MD5.md5 (concat (map MD5.md5 chunks)))
                          +:+ "-" +:+ Str.of_nat (length chunks))),
             world_of [] {[ "/srv/f" := bytes_of_string "abcdefghi" ]}).
Proof.
  split; [vm_compute; reflexivity|]. split; [lia|].
  split; [vm_compute; reflexivity|].
  apply (calculate_multipart_etag_part_count
           (world_of [] {[ "/srv/f" := bytes_of_string "abcdefghi" ]}) "f" 4
           (bytes_of_string "abcdefghi")).
  - vm_compute. reflexivity.
  - lia.
  - vm_compute. reflexivity.
Defined.

(** ** calculate_multipart_etag: the digest is always there *)

Lemma str_length_app (a b : string) :
  String.length (a +:+ b) = (String.length a + String.length b)%nat.
Proof.
  induction a as [|c a IH]; [reflexivity|].
  rewrite str_app_cons. cbn [String.length]. by rewrite IH.
Qed.

Lemma hex_length (bs : list byte) :
  String.length (MD5.hex bs) = (2 * length bs)%nat.
Proof. induction bs as [|b bs IH]; cbn [MD5.hex String.length length]; lia. Qed.

Lemma md5_length (data : list byte) : length (MD5.md5 data) = 16%nat.
Proof.
  unfold MD5.md5. destruct (MD5.blocks _ _ _) as [[[a b] c] d].
  rewrite length_map, !length_app. reflexivity.
Qed.

Lemma read_loop_nonempty (data : list byte) (chunk_size : Z) :
  -1 <= chunk_size ->
  exists md5s,
    read_loop (S (length data)) chunk_size data true [] = Ret md5s
    /\ md5s <> [].
Proof.
  intros Hsize.
  destruct data as [|b data]; [rewrite read_loop_eof by done; by eexists|].
  destruct (Z.lt_trichotomy chunk_size 0) as [Hneg|[Hz|Hpos]].
  - assert (chunk_size = -1) as -> by lia. eexists. split; [reflexivity|done].
  - subst chunk_size. eexists. split; [reflexivity|done].
  - destruct (read_loop_chunked chunk_size Hpos (S (length (b :: data)))
                (b :: data) true []) as (chunks & Hch & ->); [done|lia|].
    eexists. split; [reflexivity|].
    destruct (chunked_nonempty _ _ _ Hch) as (_ & Hne & _).
    by destruct chunks.
Qed.

Lemma new_etag_length (md5s : list MD5.md5_hash) :
  md5s <> [] -> (34 <= String.length (new_etag md5s))%nat.
Proof.
  intros Hne. unfold new_etag.
  destruct (Nat.ltb_spec 1 (length md5s)) as [Hlen|Hlen].
  - rewrite !str_length_app. unfold MD5.hexdigest, MD5.digest.
    rewrite hex_length, md5_length. cbn [String.length dquote]. lia.
  - destruct md5s as [|m [|m' md5s]]; [done| |cbn in Hlen; lia].
    rewrite !str_length_app. unfold MD5.hexdigest, MD5.digest.
    rewrite hex_length, md5_length. cbn [String.length dquote]. lia.
Qed.

(** X3: whenever the function returns, the result holds a 32-digit digest
    between its quotes: the list of digests is never empty, so the branch
    that renders a bare pair of quotes is never taken. *)
Theorem calculate_multipart_etag_has_digest
    (w w' : World) (source_path : string) (chunk_size : Z) (etag : string) :
  calculate_multipart_etag source_path chunk_size w = (Ret etag, w') ->
  (34 <= String.length etag)%nat /\ etag <> dquote +:+ dquote.
Proof.
  unfold calculate_multipart_etag.
  destruct (files w !! abspath w source_path) as [data|]; [|discriminate].
  intros H. injection H as H _. unfold multipart_etag_of in H.
  destruct (Z.lt_ge_cases chunk_size (-1)) as [Hbad|Hok].
  { by rewrite read_loop_bad_size in H. }
  destruct (read_loop_nonempty data chunk_size) as (md5s & Hrun & Hne); [lia|].
  rewrite Hrun in H. cbn [and_then] in H. injection H as <-.
  pose proof (new_etag_length md5s Hne) as Hlen.
  split; [done|]. intros E. rewrite E in Hlen.
  change (String.length (dquote +:+ dquote)) with 2%nat in Hlen. lia.
Qed.

Lemma calculate_multipart_etag_has_digest_witness :
  calculate_multipart_etag "f" MULTIPART_BYTES
    (world_of [] {[ "/srv/f" := bytes_of_string "abc" ]})
  = (Ret (quoted "900150983cd24fb0d6963f7d28e17f72"),
     world_of [] {[ "/srv/f" := bytes_of_string "abc" ]})
  /\ (34 <= String.length (quoted "900150983cd24fb0d6963f7d28e17f72"))%nat
  /\ quoted "900150983cd24fb0d6963f7d28e17f72" <> dquote +:+ dquote.
Proof.
  split; [vm_compute; reflexivity|].
  apply (calculate_multipart_etag_has_digest
           (world_of [] {[ "/srv/f" := bytes_of_string "abc" ]})
           (world_of [] {[ "/srv/f" := bytes_of_string "abc" ]})
           "f" MULTIPART_BYTES).
  vm_compute. reflexivity.
Defined.

(** X4: with chunk size 0 the first read is empty whatever the file holds, so
    every file gets the checksum of the empty file. *)
Theorem calculate_multipart_etag_chunk_size_zero
    (w : World) (source_path : string) (data : list byte) :
  files w !! abspath w source_path = Some data ->
  calculate_multipart_etag source_path 0 w
  = (Ret (quoted "d41d8cd98f00b204e9800998ecf8427e"), w).
Proof.
  intros Hfile. unfold calculate_multipart_etag. rewrite Hfile.
  by destruct data.
Qed.

Lemma calculate_multipart_etag_chunk_size_zero_witness :
  files (world_of [] {[ "/srv/f" := bytes_of_string "abc" ]})
    !! abspath (world_of [] {[ "/srv/f" := bytes_of_string "abc" ]}) "f"
  = Some (bytes_of_string "abc")
  /\ calculate_multipart_etag "f" 0
       (world_of [] {[ "/srv/f" := bytes_of_string "abc" ]})
     = (Ret (quoted "d41d8cd98f00b204e9800998ecf8427e"),
        world_of [] {[ "/srv/f" := bytes_of_string "abc" ]}).
Proof.
  split; [vm_compute; reflexivity|].
  apply (calculate_multipart_etag_chunk_size_zero
           (world_of [] {[ "/srv/f" := bytes_of_string "abc" ]}) "f"
           (bytes_of_string "abc")).
  vm_compute. reflexivity.
Defined.

(** ** GetPersistenceKey: outcomes, requests and the files it touches *)

(** An iteration that dies before the verification has sent its request
    and has at most created the empty file. *)
Lemma GetPersistenceKey_loop_early (fuel : nat) (key_url : string) (rc : Z)
    (w : World) :
  (exists e fs,
      GetPersistenceKey_loop (S fuel) key_url rc w
      = (Raise e, with_files (answered w (Get key_url []) (drop 1 (net w))) fs)
      /\ (fs = files w
          \/ exists f, local_filename key_url = Ret f
                       /\ fs = <[abspath w f := []]> (files w)))
  \/ (exists r rest f calc,
        net w = Served r :: rest
        /\ local_filename key_url = Ret f
        /\ openable f = true
        /\ is_Some (content_length r)
        /\ computed_etag r = Ret calc).
Proof.
  cbn [GetPersistenceKey_loop]. unfold bind at 1. unfold requests_get.
  destruct (net w) as [|[|r] rest] eqn:Hnet.
  - left. exists ConnectionError, (files w). split; [reflexivity|by left].
  - left. exists ConnectionError, (files w). split; [reflexivity|by left].
  - unfold bind at 1. unfold lift at 1.
    destruct (local_filename_cases key_url) as [[f Hf]|Hf]; rewrite Hf.
    2:{ left. exists ValueError, (files w). split; [reflexivity|by left]. }
    unfold bind at 1. unfold open_wb.
    destruct (openable f) eqn:Hopen.
    2:{ left. exists OSError, (files w). split; [reflexivity|by left]. }
    unfold set_files. unfold bind at 1. unfold lift at 1.
    destruct (content_length r) as [n|] eqn:Hn.
    2:{ left. exists TypeError, (<[abspath w f := []]> (files w)).
        split; [reflexivity|right; by exists f]. }
    destruct (computed_etag_total r) as [calc Hcalc].
    right. exists r, rest, f, calc.
    split_and!; [done|done|done|by rewrite Hn|done].
Qed.

Lemma GetPersistenceKey_loop_bounded (key_url : string) :
  forall (fuel : nat) (rc : Z) (w w' : World) (o : outcome unit),
    GetPersistenceKey_loop fuel key_url rc w = (o, w') ->
    o <> Timeout ->
    rc <= 3 ->
    (o = Ret tt \/ (exists e, o = Raise e) \/ o = OsExit 1)
    /\ exists n,
         (1 <= n)%nat /\ rc + Z.of_nat n <= 4
         /\ (o = OsExit 1 -> rc + Z.of_nat n = 4)
         /\ trace w' = trace w ++ task_events key_url n o.
Proof.
  induction fuel as [|fuel IH]; intros rc w w' o Hrun Hnt Hrc.
  { cbn in Hrun. injection Hrun as <- _. done. }
  destruct (GetPersistenceKey_loop_early fuel key_url rc w)
    as [(e & fs & Hexn & _)|(r & rest & f & calc & Hnet & Hf & Hop & Hn & Hcalc)].
  { rewrite Hexn in Hrun. injection Hrun as <- <-.
    split; [right; left; by eexists|].
    exists 1%nat. split_and!; [lia|lia|done|reflexivity]. }
  rewrite (GetPersistenceKey_attempt fuel key_url f rc w r rest calc)
    in Hrun by done.
  destruct (ETag r) as [e|].
  2:{ injection Hrun as <- <-. split; [right; left; by eexists|].
      exists 1%nat. split_and!; [lia|lia|done|reflexivity]. }
  destruct (String.eqb calc e).
  { injection Hrun as <- <-. split; [by left|].
    exists 1%nat. split_and!; [lia|lia|done|reflexivity]. }
  destruct (Z.ltb_spec 3 (rc + 1)).
  { injection Hrun as <- <-. split; [by right; right|].
    exists 1%nat. split_and!; [lia|lia|lia|].
    cbn. by rewrite <- app_assoc. }
  destruct (IH _ _ _ _ Hrun Hnt) as (Hout & n & Hn1 & Hn4 & Hex & Htr); [lia|].
  split; [done|]. exists (S n).
  split_and!; [lia|lia|intros Ho; specialize (Hex Ho); lia|].
  rewrite Htr. cbn. by rewrite <- app_assoc.
Qed.

Lemma GetPersistenceKey_outcomes
    (key_url : string) (w w' : World) (o : outcome unit) :
  GetPersistenceKey key_url w = (o, w') ->
  o = Ret tt \/ (exists e, o = Raise e) \/ o = OsExit 1.
Proof.
  intros Hrun.
  assert (Hnt : o <> Timeout).
  { pose proof (GetPersistenceKey_loop_ends key_url 4 0 w) as Hends.
    unfold GetPersistenceKey in Hrun. rewrite Hrun in Hends. apply Hends; lia. }
  by destruct (GetPersistenceKey_loop_bounded key_url 4 0 w w' o Hrun Hnt)
    as (Hout & _); [lia|].
Qed.

(** X5: a task ends by returning, by an exception or by [os._exit(1)], never
    otherwise; it sends between one and four requests, all for its own
    URL, and exactly four when it aborts, the pause of five seconds being
    the last thing it does. *)
Theorem GetPersistenceKey_outcome_and_requests
    (key_url : string) (w w' : World) (o : outcome unit) :
  GetPersistenceKey key_url w = (o, w') ->
  (o = Ret tt \/ (exists e, o = Raise e) \/ o = OsExit 1)
  /\ exists n,
       (1 <= n <= 4)%nat
       /\ (o = OsExit 1 -> n = 4%nat)
       /\ trace w' = trace w ++ task_events key_url n o.
Proof.
  intros Hrun.
  assert (Hnt : o <> Timeout).
  { pose proof (GetPersistenceKey_loop_ends key_url 4 0 w) as Hends.
    unfold GetPersistenceKey in Hrun. rewrite Hrun in Hends. apply Hends; lia. }
  destruct (GetPersistenceKey_loop_bounded key_url 4 0 w w' o Hrun Hnt)
    as (Hout & n & Hn1 & Hn4 & Hex & Htr); [lia|].
  split; [done|]. exists n. split_and!; [lia|lia| |done].
  intros Ho. specialize (Hex Ho). lia.
Qed.

Lemma GetPersistenceKey_outcome_and_requests_witness :
  GetPersistenceKey key_a four_wrong
  = (OsExit 1, snd (GetPersistenceKey key_a four_wrong))
  /\ ((@OsExit unit 1 = Ret tt \/ (exists e, @OsExit unit 1 = Raise e)
       \/ @OsExit unit 1 = OsExit 1)
      /\ exists n,
           (1 <= n <= 4)%nat
           /\ (@OsExit unit 1 = OsExit 1 -> n = 4%nat)
           /\ trace (snd (GetPersistenceKey key_a four_wrong))
              = trace four_wrong ++ task_events key_a n (OsExit 1)).
Proof.
  split; [vm_compute; reflexivity|].
  apply (GetPersistenceKey_outcome_and_requests key_a four_wrong
           (snd (GetPersistenceKey key_a four_wrong)) (OsExit 1)).
  vm_compute. reflexivity.
Defined.

Lemma GetPersistenceKey_loop_frame (key_url : string) :
  forall (fuel : nat) (rc : Z) (w w' : World) (o : outcome unit),
    GetPersistenceKey_loop fuel key_url rc w = (o, w') ->
    cwd w' = cwd w
    /\ forall p, (forall f, local_filename key_url = Ret f -> p <> abspath w f) ->
                 files w' !! p = files w !! p.
Proof.
  induction fuel as [|fuel IH]; intros rc w w' o Hrun.
  { cbn in Hrun. by injection Hrun as <- <-. }
  destruct (GetPersistenceKey_loop_early fuel key_url rc w)
    as [(e & fs & Hexn & Hfs)|(r & rest & f & calc & Hnet & Hf & Hop & Hn & Hcalc)].
  { rewrite Hexn in Hrun. injection Hrun as <- <-. split; [reflexivity|].
    intros p Hp. destruct Hfs as [->|(f & Hf & ->)]; [reflexivity|].
    cbn. apply lookup_insert_ne. intros E. by apply (Hp f Hf). }
  rewrite (GetPersistenceKey_attempt fuel key_url f rc w r rest calc)
    in Hrun by done.
  assert (Hwritten :
    forall p, (forall f, local_filename key_url = Ret f -> p <> abspath w f) ->
      files (attempt_written w key_url rest (abspath w f) (concat (body r))) !! p
      = files w !! p).
  { intros p Hp. cbn. apply lookup_insert_ne. intros E. by apply (Hp f Hf). }
  assert (Hremoved :
    forall p, (forall f, local_filename key_url = Ret f -> p <> abspath w f) ->
      files (attempt_removed w key_url rest (abspath w f)) !! p = files w !! p).
  { intros p Hp. cbn. apply lookup_delete_ne. intros E. by apply (Hp f Hf). }
  destruct (ETag r) as [e|]; [|by injection Hrun as <- <-].
  destruct (String.eqb calc e); [by injection Hrun as <- <-|].
  destruct (3 <? rc + 1); [by injection Hrun as <- <-|].
  apply IH in Hrun as [Hcwd Hfiles]. split; [done|].
  intros p Hp. rewrite Hfiles; [by apply Hremoved|].
  intros f' Hf'. apply (Hp f' Hf').
Qed.

(** X6: a task leaves the current directory as it is and changes no file but
    the one its key URL names. *)
Theorem GetPersistenceKey_touches_only_its_file
    (key_url : string) (w w' : World) (o : outcome unit) :
  GetPersistenceKey key_url w = (o, w') ->
  cwd w' = cwd w
  /\ forall p, (forall f, local_filename key_url = Ret f -> p <> abspath w f) ->
               files w' !! p = files w !! p.
Proof. apply GetPersistenceKey_loop_frame. Qed.

Lemma GetPersistenceKey_touches_only_its_file_witness :
  GetPersistenceKey key_a three_wrong_one_right
  = (Ret tt, snd (GetPersistenceKey key_a three_wrong_one_right))
  /\ (cwd (snd (GetPersistenceKey key_a three_wrong_one_right))
      = cwd three_wrong_one_right
      /\ forall p,
           (forall f, local_filename key_a = Ret f ->
                      p <> abspath three_wrong_one_right f) ->
           files (snd (GetPersistenceKey key_a three_wrong_one_right)) !! p
           = files three_wrong_one_right !! p).
Proof.
  split; [vm_compute; reflexivity|].
  apply (GetPersistenceKey_touches_only_its_file key_a three_wrong_one_right
           (snd (GetPersistenceKey key_a three_wrong_one_right)) (Ret tt)).
  vm_compute. reflexivity.
Defined.

(** X7: a response without an ETag header: the bytes are written, the
    comparison fails, and building the message raises [TypeError] before
    the file is removed; the unverified file stays on disk and no second
    request is made. *)
Theorem GetPersistenceKey_without_etag (key_url f : string) (w : World)
    (r : Response) (rest : list Reply) :
  net w = Served r :: rest ->
  local_filename key_url = Ret f ->
  openable f = true ->
  is_Some (content_length r) ->
  ETag r = None ->
  GetPersistenceKey key_url w
  = (Raise TypeError,
     attempt_written w key_url rest (abspath w f) (concat (body r)))
  /\ files (snd (GetPersistenceKey key_url w)) !! abspath w f
     = Some (concat (body r))
  /\ net (snd (GetPersistenceKey key_url w)) = rest.
Proof.
  intros Hnet Hf Hop Hn He.
  destruct (computed_etag_total r) as [calc Hcalc].
  unfold GetPersistenceKey.
  rewrite (GetPersistenceKey_attempt 3 key_url f 0 w r rest calc) by done.
  rewrite He. split_and!; [reflexivity|apply lookup_insert_eq|reflexivity].
Qed.

Lemma GetPersistenceKey_without_etag_witness :
  net (world_of [Served abc_without_etag; Served abc_right] ∅)
  = Served abc_without_etag :: [Served abc_right]
  /\ local_filename key_a = Ret "persistence/a.txt"
  /\ openable "persistence/a.txt" = true
  /\ is_Some (content_length abc_without_etag)
  /\ ETag abc_without_etag = None
  /\ (GetPersistenceKey key_a (world_of [Served abc_without_etag; Served abc_right] ∅)
      = (Raise TypeError,
         attempt_written (world_of [Served abc_without_etag; Served abc_right] ∅)
           key_a [Served abc_right]
           (abspath (world_of [Served abc_without_etag; Served abc_right] ∅)
              "persistence/a.txt")
           (concat (body abc_without_etag)))
      /\ files (snd (GetPersistenceKey key_a
                       (world_of [Served abc_without_etag; Served abc_right] ∅)))
           !! abspath (world_of [Served abc_without_etag; Served abc_right] ∅)
                "persistence/a.txt"
         = Some (concat (body abc_without_etag))
      /\ net (snd (GetPersistenceKey key_a
                     (world_of [Served abc_without_etag; Served abc_right] ∅)))
         = [Served abc_right]).
Proof.
  split; [reflexivity|]. split; [reflexivity|]. split; [reflexivity|].
  split; [by eexists|]. split; [reflexivity|].
  apply (GetPersistenceKey_without_etag key_a "persistence/a.txt"
           (world_of [Served abc_without_etag; Served abc_right] ∅)
           abc_without_etag [Served abc_right]);
    first [reflexivity | by eexists].
Defined.

(** X8: a key URL without the network name: the request has been sent and
    its reply used up when [index] raises [ValueError]; nothing is
    written. *)
Theorem GetPersistenceKey_without_network_name (key_url : string) (w : World)
    (r : Response) (rest : list Reply) :
  net w = Served r :: rest ->
  Str.contains (TESTNET_NAME +:+ "/") key_url = false ->
  GetPersistenceKey key_url w
  = (Raise ValueError, answered w (Get key_url []) rest).
Proof.
  intros Hnet Hc. unfold GetPersistenceKey. cbn [GetPersistenceKey_loop].
  unfold bind at 1, requests_get. rewrite Hnet.
  unfold bind at 1, lift at 1, local_filename.
  unfold Str.contains in Hc.
  by destruct (Str.find (TESTNET_NAME +:+ "/") key_url).
Qed.

Lemma GetPersistenceKey_without_network_name_witness :
  net (world_of [Served abc_right] ∅) = Served abc_right :: []
  /\ Str.contains (TESTNET_NAME +:+ "/") key_elsewhere = false
  /\ GetPersistenceKey key_elsewhere (world_of [Served abc_right] ∅)
     = (Raise ValueError,
        answered (world_of [Served abc_right] ∅) (Get key_elsewhere []) []).
Proof.
  split; [reflexivity|]. split; [reflexivity|].
  apply (GetPersistenceKey_without_network_name key_elsewhere
           (world_of [Served abc_right] ∅) abc_right []); reflexivity.
Defined.

(** ** The worker pool and the lister: what leaves them *)

Lemma pool_map_ends_two_ways (tasks : list string) (w : World) :
  fst (pool_map tasks w) = Ret tt \/ fst (pool_map tasks w) = OsExit 1.
Proof.
  revert w. induction tasks as [|key_url tasks IH]; intros w; [by left|].
  cbn [pool_map].
  destruct (GetPersistenceKey key_url w) as [o w'] eqn:Hrun.
  destruct (GetPersistenceKey_outcomes key_url w w' o Hrun)
    as [->|[[e ->]| ->]]; [apply IH|apply IH|by right].
Qed.

(** X9: no exception of a task ever leaves the pool stage, whatever the tasks
    and the replies: the stage returns, or the process is ended by the
    [os._exit(1)] of a task. *)
Theorem pool_map_returns_or_aborts (tasks : list string) (w : World) :
  fst (pool_map tasks w) = Ret tt \/ fst (pool_map tasks w) = OsExit 1.
Proof. apply pool_map_ends_two_ways. Qed.

(** The paging loop only sends listing requests and touches no file; when
    it is left by [return] the code is 1. *)
Lemma list_loop_effects (cfg : Config) (url prefix : string) :
  forall (fuel : nat) (MARKER : string) (acc : list string)
         (w w' : World) (o : outcome (Z + list string)),
    list_loop fuel cfg url prefix MARKER acc w = (o, w') ->
    files w' = files w
    /\ cwd w' = cwd w
    /\ (exists ms, trace w'
                   = trace w ++ map (fun m => Get url (listing_params prefix m)) ms)
    /\ (o = Timeout \/ (exists e, o = Raise e) \/ o = Ret (inl 1)
        \/ exists l, o = Ret (inr l)).
Proof.
  induction fuel as [|fuel IH]; intros MARKER acc w w' o Hrun.
  { cbn in Hrun. injection Hrun as <- <-.
    split_and!; [done|done|exists []; by rewrite app_nil_r|by left]. }
  cbn [list_loop] in Hrun. unfold bind at 1, requests_get in Hrun.
  assert (Hone : forall rest, exists ms,
            trace (answered w (Get url (listing_params prefix MARKER)) rest)
            = trace w ++ map (fun m => Get url (listing_params prefix m)) ms)
    by (intros rest; by exists [MARKER]).
  destruct (net w) as [|[|r] rest] eqn:Hnet;
    [injection Hrun as <- <-; split_and!; [done|done|apply Hone|right; left; by eexists]..|].
  unfold bind at 1, lift at 1 in Hrun.
  destruct (xml r) as [tree|];
    [|injection Hrun as <- <-; split_and!; [done|done|apply Hone|right; left; by eexists]].
  destruct (drop 5 (children_of tree)) as [|e entries];
    [injection Hrun as <- <-; split_and!; [done|done|apply Hone|by right; right; left]|].
  unfold bind at 1, lift at 1 in Hrun.
  destruct (scan_page_outcome cfg url (e :: entries) acc "") as [[[l k] Hs]|[x Hs]];
    rewrite Hs in Hrun;
    [|injection Hrun as <- <-; split_and!; [done|done|apply Hone|right; left; by eexists]].
  unfold bind at 1, lift at 1 in Hrun.
  destruct (children_of tree !! 4%nat) as [flag|];
    [|injection Hrun as <- <-; split_and!; [done|done|apply Hone|right; left; by eexists]].
  destruct (decide (text_of flag = Some "true"));
    [|injection Hrun as <- <-; split_and!; [done|done|apply Hone|right; right; right; by eexists]].
  apply IH in Hrun as (Hf & Hc & [ms Ht] & Ho).
  split_and!; [done|done| |done].
  exists (MARKER :: ms). rewrite Ht. cbn. by rewrite <- app_assoc.
Qed.

(** X10: [GetAllObjectsFromS3] returns 0 or 1, raises, or is cut short by
    [os._exit(1)]; nothing else.  When it returns 1 or raises, the
    exception comes from the listing: only listing requests have been
    sent and no file has changed. *)
Theorem GetAllObjectsFromS3_outcomes (cfg : Config) (url folderName : string)
    (w w' : World) (o : outcome Z) :
  GetAllObjectsFromS3 cfg url folderName w = (o, w') ->
  (o = Ret 0 \/ o = Ret 1 \/ (exists e, o = Raise e) \/ o = OsExit 1)
  /\ (o = Ret 1 \/ (exists e, o = Raise e) ->
      files w' = files w
      /\ exists ms,
           trace w'
           = trace w
             ++ map (fun m => Get url (listing_params (listing_prefix folderName) m))
                  ms).
Proof.
  unfold GetAllObjectsFromS3, bind at 1. intros Hrun.
  pose proof (list_loop_ends cfg url (listing_prefix folderName)
                (S (length (net w))) "" [] w (Nat.lt_succ_diag_r _)) as Hends.
  destruct (list_loop _ _ _ _ _ _ w) as [o1 w1] eqn:Hloop.
  apply list_loop_effects in Hloop as (Hf & _ & Ht & Ho).
  destruct Ho as [->|[[e ->]|[->|[l ->]]]]; [done| | |].
  - injection Hrun as <- <-. split; [right; right; left; by eexists|done].
  - injection Hrun as <- <-. split; [by right; left|done].
  - unfold bind in Hrun.
    destruct (pool_map_ends_two_ways l w1) as [H|H];
      destruct (pool_map l w1) as [o2 w2]; cbn in H; subst o2;
      injection Hrun as <- <-.
    + split; [by left|]. intros [H|[e H]]; discriminate.
    + split; [by right; right; right|]. intros [H|[e H]]; discriminate.
Qed.

Lemma GetAllObjectsFromS3_outcomes_witness :
  GetAllObjectsFromS3 cfg0 getURL PERSISTENCE_SNAPSHOT_NAME
    (world_of [Served (listing_response [] "false")] ∅)
  = (Ret 1,
     snd (GetAllObjectsFromS3 cfg0 getURL PERSISTENCE_SNAPSHOT_NAME
            (world_of [Served (listing_response [] "false")] ∅)))
  /\ ((@Ret Z 1 = Ret 0 \/ @Ret Z 1 = Ret 1 \/ (exists e, @Ret Z 1 = Raise e)
       \/ @Ret Z 1 = OsExit 1)
      /\ (@Ret Z 1 = Ret 1 \/ (exists e, @Ret Z 1 = Raise e) ->
          files (snd (GetAllObjectsFromS3 cfg0 getURL PERSISTENCE_SNAPSHOT_NAME
                        (world_of [Served (listing_response [] "false")] ∅)))
          = files (world_of [Served (listing_response [] "false")] ∅)
          /\ exists ms,
               trace (snd (GetAllObjectsFromS3 cfg0 getURL PERSISTENCE_SNAPSHOT_NAME
                             (world_of [Served (listing_response [] "false")] ∅)))
               = trace (world_of [Served (listing_response [] "false")] ∅)
                 ++ map (fun m =>
                           Get getURL
                             (listing_params
                                (listing_prefix PERSISTENCE_SNAPSHOT_NAME) m))
                      ms)).
Proof.
  split; [vm_compute; reflexivity|].
  apply (GetAllObjectsFromS3_outcomes cfg0 getURL PERSISTENCE_SNAPSHOT_NAME
           (world_of [Served (listing_response [] "false")] ∅)
           (snd (GetAllObjectsFromS3 cfg0 getURL PERSISTENCE_SNAPSHOT_NAME
                   (world_of [Served (listing_response [] "false")] ∅)))
           (Ret 1)).
  vm_compute. reflexivity.
Defined.

(** ** The exclusion filters *)

Lemma scan_page_listed (cfg : Config) (url : string) :
  forall (entries : list Element) (acc : list string) (lastkey : string)
         (res : list string * string),
    scan_page cfg url entries acc lastkey = Ret res ->
    exists keys, keys_of entries = Some keys.
Proof.
  induction entries as [|key rest IH]; intros acc lastkey res Hs; [by eexists|].
  cbn [scan_page] in Hs. cbn [keys_of].
  destruct (entry_key_url key) as [key_url| | | |]; try discriminate.
  cbn [and_then] in Hs. apply IH in Hs as [keys ->]. by eexists.
Qed.

Lemma keys_of_In (entries : list Element) (keys : list string) (key : string) :
  keys_of entries = Some keys ->
  In key keys <-> exists e, In e entries /\ entry_key_url e = Ret key.
Proof.
  revert keys. induction entries as [|e entries IH]; intros keys Hk.
  - injection Hk as <-. split; [done|]. by intros (e & [] & _).
  - cbn [keys_of] in Hk.
    destruct (entry_key_url e) as [k| | | |] eqn:He; try discriminate.
    destruct (keys_of entries) as [keys'|]; [|discriminate].
    injection Hk as <-. cbn [In]. rewrite (IH keys' eq_refl). split.
    + intros [->|(e' & Hin & He')]; [exists e; by split; [left|]|].
      exists e'. by split; [right|].
    + intros (e' & [->|Hin] & He'); [left; congruence|].
      right. by exists e'.
Qed.

Lemma kept_spec (cfg : Config) (key : string) :
  kept cfg key = true
  <-> (Exclude_txnBodies cfg = true -> Str.contains "txBodies" key = false)
      /\ (Exclude_microBlocks cfg = true -> Str.contains "microBlocks" key = false).
Proof.
  unfold kept.
  destruct (Exclude_txnBodies cfg), (Exclude_microBlocks cfg),
    (Str.contains "txBodies" key), (Str.contains "microBlocks" key);
    cbn; split; try done; intros [H1 H2];
    first [by specialize (H1 eq_refl) | by specialize (H2 eq_refl)].
Qed.

(** X11: the key URLs a page contributes are those of the listed keys that no
    active filter excludes: with [Exclude_txnBodies] on, no key that
    contains ["txBodies"]; with [Exclude_microBlocks] on, no key that
    contains ["microBlocks"]; with a filter off, such keys are kept.  The
    key that becomes the next marker is the last one listed, kept or not. *)
Theorem scan_page_filters (cfg : Config) (url : string) (entries : list Element)
    (list_of_keyurls : list string) (lastkey : string) :
  scan_page cfg url entries [] "" = Ret (list_of_keyurls, lastkey) ->
  (forall key,
      In (url +:+ "/" +:+ key) list_of_keyurls
      <-> (exists e, In e entries /\ entry_key_url e = Ret key)
          /\ (Exclude_txnBodies cfg = true -> Str.contains "txBodies" key = false)
          /\ (Exclude_microBlocks cfg = true ->
              Str.contains "microBlocks" key = false))
  /\ exists keys, keys_of entries = Some keys /\ lastkey = List.last keys "".
Proof.
  intros Hs. destruct (scan_page_listed _ _ _ _ _ _ Hs) as [keys Hk].
  rewrite (scan_page_keys cfg url entries keys [] "" Hk) in Hs.
  injection Hs as <- <-. split; [|by exists keys].
  intros key. cbn [app]. unfold surviving. rewrite in_map_iff.
  rewrite <- (keys_of_In entries keys key Hk), <- kept_spec. split.
  - intros (k & Heq & Hin). apply filter_In in Hin as [Hin Hkept].
    apply String.app_inj in Heq. apply String.app_inj in Heq. by subst k.
  - intros [Hin Hkept]. exists key. split; [done|]. by apply filter_In.
Qed.

Lemma scan_page_filters_witness :
  scan_page cfg0 getURL
    (map contents ["incremental/TEST_NET_NAME/persistence/txBodies/1";
                   "incremental/TEST_NET_NAME/persistence/a.txt";
                   "incremental/TEST_NET_NAME/persistence/microBlocks/2"]) [] ""
  = Ret ([key_a], "incremental/TEST_NET_NAME/persistence/microBlocks/2")
  /\ ((forall key,
         In (getURL +:+ "/" +:+ key) [key_a]
         <-> (exists e,
                In e (map contents
                        ["incremental/TEST_NET_NAME/persistence/txBodies/1";
                         "incremental/TEST_NET_NAME/persistence/a.txt";
                         "incremental/TEST_NET_NAME/persistence/microBlocks/2"])
                /\ entry_key_url e = Ret key)
             /\ (Exclude_txnBodies cfg0 = true ->
                 Str.contains "txBodies" key = false)
             /\ (Exclude_microBlocks cfg0 = true ->
                 Str.contains "microBlocks" key = false))
      /\ exists keys,
           keys_of (map contents
                      ["incremental/TEST_NET_NAME/persistence/txBodies/1";
                       "incremental/TEST_NET_NAME/persistence/a.txt";
                       "incremental/TEST_NET_NAME/persistence/microBlocks/2"])
           = Some keys
           /\ "incremental/TEST_NET_NAME/persistence/microBlocks/2"
              = List.last keys "").
Proof.
  split; [vm_compute; reflexivity|].
  apply (scan_page_filters cfg0 getURL
           (map contents ["incremental/TEST_NET_NAME/persistence/txBodies/1";
                          "incremental/TEST_NET_NAME/persistence/a.txt";
                          "incremental/TEST_NET_NAME/persistence/microBlocks/2"])
           [key_a] "incremental/TEST_NET_NAME/persistence/microBlocks/2").
  vm_compute. reflexivity.
Defined.

(** ** The controller: how a run can end *)

Lemma plain_status {A} (o : outcome A) : plain o -> plain_or_status_1 o.
Proof. by destruct o. Qed.

Lemma bind_plain {A B} (m : M A) (k : A -> M B) (w : World) :
  plain (fst (m w)) ->
  (forall a w', plain (fst (k a w'))) ->
  plain (fst (bind m k w)).
Proof.
  intros Hm Hk. unfold bind.
  destruct (m w) as [[a|e|c|c|] w']; first [done | apply Hk].
Qed.

Lemma bind_status {A B} (m : M A) (k : A -> M B) (w : World) :
  plain_or_status_1 (fst (m w)) ->
  (forall a w', plain_or_status_1 (fst (k a w'))) ->
  plain_or_status_1 (fst (bind m k w)).
Proof.
  intros Hm Hk. unfold bind.
  destruct (m w) as [[a|e|c|c|] w']; first [done | apply Hk].
Qed.

Lemma UploadLock_plain (w : World) : plain (fst (UploadLock w)).
Proof.
  unfold UploadLock, bind, requests_get.
  destruct (net w) as [|[|r] rest]; try done.
  by destruct (status_code r =? 200).
Qed.

Lemma os_remove_plain (path : string) (w : World) : plain (fst (os_remove path w)).
Proof. unfold os_remove. by destruct (files w !! abspath w path). Qed.

Lemma shutil_rmtree_plain (path : string) (w : World) :
  plain (fst (shutil_rmtree path w)).
Proof. unfold shutil_rmtree. by destruct (files w !! abspath w path). Qed.

Lemma os_chdir_plain (path : string) (w : World) : plain (fst (os_chdir path w)).
Proof. unfold os_chdir. by destruct (files w !! abspath w path). Qed.

Lemma CleanupDir_plain (folderName : string) (w : World) :
  plain (fst (CleanupDir folderName w)).
Proof.
  unfold CleanupDir. destruct (path_exists w folderName); [|done].
  apply shutil_rmtree_plain.
Qed.

Lemma tar_extractall_plain (f : string) (w : World) :
  plain (fst (tar_extractall f w)).
Proof.
  unfold tar_extractall. destruct (files w !! abspath w f) as [data|]; [|done].
  by destruct (tarfile w data).
Qed.

Lemma extract_each_plain (fs : list string) (w : World) :
  plain (fst (extract_each fs w)).
Proof.
  revert w. induction fs as [|f fs IH]; intros w; [done|].
  cbn [extract_each]. apply bind_plain; [|intros; apply IH].
  destruct (Str.endswith ".tar.gz" f).
  - apply bind_plain; [apply tar_extractall_plain|intros; apply os_remove_plain].
  - destruct (files w !! abspath w f);
      [apply os_remove_plain|apply shutil_rmtree_plain].
Qed.

Lemma GetAllObjectsFromS3_status (cfg : Config) (url folderName : string)
    (w : World) :
  match fst (GetAllObjectsFromS3 cfg url folderName w) with
  | Ret _ | Raise _ => True
  | OsExit c => c = 1
  | _ => False
  end.
Proof.
  destruct (GetAllObjectsFromS3 cfg url folderName w) as [o w'] eqn:Hrun.
  unfold GetAllObjectsFromS3, bind at 1 in Hrun.
  pose proof (list_loop_ends cfg url (listing_prefix folderName)
                (S (length (net w))) "" [] w (Nat.lt_succ_diag_r _)) as Hends.
  destruct (list_loop _ _ _ _ _ _ w) as [o1 w1] eqn:Hloop.
  apply list_loop_effects in Hloop as (_ & _ & _ & Ho).
  destruct Ho as [->|[[e ->]|[->|[l ->]]]]; [done| | |];
    try (by injection Hrun as <- <-).
  unfold bind in Hrun.
  destruct (pool_map_ends_two_ways l w1) as [H|H];
    destruct (pool_map l w1) as [o2 w2]; cbn in H; subst o2;
    by injection Hrun as <- <-.
Qed.

Lemma GetEntirePersistenceFromS3_status (cfg : Config) (w : World) :
  plain_or_status_1 (fst (GetEntirePersistenceFromS3 cfg w)).
Proof.
  unfold GetEntirePersistenceFromS3.
  apply bind_status; [apply plain_status, CleanupDir_plain|intros _ w1].
  apply bind_status; [apply plain_status, os_chdir_plain|intros _ w2].
  unfold bind.
  pose proof (GetAllObjectsFromS3_status cfg getURL PERSISTENCE_SNAPSHOT_NAME w2) as H.
  destruct (GetAllObjectsFromS3 _ _ _ w2) as [[r|e|c|c|] w3]; try done.
  by destruct (r =? 1).
Qed.

Lemma GetStateDeltaFromS3_status (cfg : Config) (w : World) :
  plain_or_status_1 (fst (GetStateDeltaFromS3 cfg w)).
Proof.
  unfold GetStateDeltaFromS3.
  apply bind_status.
  { apply plain_status. unfold CleanupCreateAndChangeDir.
    apply bind_plain; [apply CleanupDir_plain|intros; apply os_chdir_plain]. }
  intros _ w1. unfold bind.
  pose proof (GetAllObjectsFromS3_status cfg getURL STATEDELTA_DIFF_NAME w1) as H.
  destruct (GetAllObjectsFromS3 _ _ _ w1) as [[r|e|c|c|] w2]; try done.
  apply plain_status, extract_each_plain.
Qed.

Lemma run_pass_status (cfg : Config) (w : World) :
  plain_or_status_1 (fst (run_pass cfg w)).
Proof.
  unfold run_pass.
  apply bind_status; [apply plain_status, UploadLock_plain|intros lock1 w1].
  destruct (Bool.eqb lock1 false); [|done].
  unfold snapshot_then_delta.
  apply bind_status; [apply GetEntirePersistenceFromS3_status|intros _ w2].
  apply bind_status; [apply plain_status, UploadLock_plain|intros lock2 w3].
  destruct (Bool.eqb lock2 true); [done|].
  apply bind_status; [apply GetStateDeltaFromS3_status|done].
Qed.

(** X12: however many passes it takes, [run] never returns to its caller and
    never lets an exception out: when it ends, the process ends, with
    status 0 or with status 1. *)
Theorem run_exit_statuses (fuel : nat) (cfg : Config) (w : World) :
  fst (run fuel cfg w) = SystemExit 0
  \/ fst (run fuel cfg w) = SystemExit 1
  \/ fst (run fuel cfg w) = OsExit 1
  \/ fst (run fuel cfg w) = Timeout.
Proof.
  revert w. induction fuel as [|fuel IH]; intros w; [by right; right; right|].
  cbn [run]. pose proof (run_pass_status cfg w) as H.
  destruct (run_pass cfg w) as [[[]|e|c|c|] w']; cbn in H; subst;
    first [ done
          | apply IH
          | by left
          | by right; left
          | by right; right; left
          | unfold bind, time_sleep, emit; apply IH ].
Qed.

(** ** The controller: polling, pausing, starting over *)

(** X13: while the lock is reported, the controller only polls: [n] answers
    with status 200 cost [n] passes that send the lock request and nothing
    else, without a pause in between. *)
Theorem run_polls_while_locked (cfg : Config) (fuel : nat) :
  forall (rs : list Response) (rest : list Reply) (w : World),
    net w = map Served rs ++ rest ->
    Forall (fun r => status_code r = 200) rs ->
    run (length rs + fuel) cfg w
    = run fuel cfg
        (mkWorld rest (trace w ++ repeat (Get lock_url []) (length rs))
           (cwd w) (files w) (tarfile w)).
Proof.
  induction rs as [|r rs IH]; intros rest w Hnet Hall.
  - cbn in *. rewrite app_nil_r. destruct w; cbn in *. by subst.
  - inversion Hall as [|r' rs' Hr Hrs]; subst.
    cbn [length Nat.add run map app] in *.
    unfold run_pass, bind at 1.
    rewrite (UploadLock_served w r _ Hnet), Hr. cbn [Z.eqb Pos.eqb Bool.eqb ret].
    rewrite (IH rest (answered w (Get lock_url []) (map Served rs ++ rest)))
      by done.
    f_equal. unfold answered. cbn [trace cwd files tarfile].
    by rewrite <- app_assoc.
Qed.

Lemma run_polls_while_locked_witness :
  net (world_of [Served (status_response 200); Served (status_response 200)] ∅)
  = map Served [status_response 200; status_response 200] ++ []
  /\ Forall (fun r => status_code r = 200) [status_response 200; status_response 200]
  /\ run (length [status_response 200; status_response 200] + 1) cfg0
       (world_of [Served (status_response 200); Served (status_response 200)] ∅)
     = run 1 cfg0
         (mkWorld []
            (trace (world_of [Served (status_response 200);
                              Served (status_response 200)] ∅)
             ++ repeat (Get lock_url [])
                  (length [status_response 200; status_response 200]))
            (cwd (world_of [Served (status_response 200);
                            Served (status_response 200)] ∅))
            (files (world_of [Served (status_response 200);
                              Served (status_response 200)] ∅))
            (tarfile (world_of [Served (status_response 200);
                                Served (status_response 200)] ∅))).
Proof.
  split; [reflexivity|]. split; [by repeat constructor|].
  apply (run_polls_while_locked cfg0 1 [status_response 200; status_response 200]
           [] (world_of [Served (status_response 200);
                         Served (status_response 200)] ∅)).
  - reflexivity.
  - by repeat constructor.
Defined.

(** X14: without any reply from the network the controller never ends: every
    pass is one lock request and a pause of five seconds, for as long as
    it is run, and no file is touched. *)
Theorem run_without_network_never_ends (cfg : Config) (fuel : nat) (w : World) :
  net w = [] ->
  run fuel cfg w
  = (Timeout,
     mkWorld [] (trace w ++ idle_passes fuel) (cwd w) (files w) (tarfile w)).
Proof.
  revert w. induction fuel as [|fuel IH]; intros w Hnet.
  - cbn. unfold lift, idle_passes. cbn. rewrite app_nil_r.
    destruct w; cbn in *. by subst.
  - cbn [run]. unfold run_pass, bind at 1, UploadLock, bind at 1, requests_get.
    rewrite Hnet. unfold bind, time_sleep, emit.
    rewrite IH by reflexivity.
    f_equal. unfold with_event, answered, idle_passes.
    cbn [trace cwd files tarfile repeat concat].
    f_equal. rewrite <- !app_assoc. reflexivity.
Qed.

Lemma run_without_network_never_ends_witness :
  net (world_of [] ∅) = []
  /\ run 3 cfg0 (world_of [] ∅)
     = (Timeout,
        mkWorld [] (trace (world_of [] ∅) ++ idle_passes 3)
          (cwd (world_of [] ∅)) (files (world_of [] ∅)) (tarfile (world_of [] ∅))).
Proof.
  split; [reflexivity|].
  apply (run_without_network_never_ends cfg0 3 (world_of [] ∅)). reflexivity.
Defined.

(** X15: a snapshot listing that is not XML is an ordinary exception: the
    controller pauses for five seconds and starts a new pass, where an
    empty listing ends the process. *)
Theorem run_restarts_after_garbled_listing (cfg : Config) (fuel : nat)
    (w w1 wd : World) (r : Response) (rest : list Reply) :
  UploadLock w = (Ret false, w1) ->
  (CleanupDir (STORAGE_PATH cfg +:+ "/persistence") ;;;
   CreateAndChangeDir (STORAGE_PATH cfg)) w1 = (Ret tt, wd) ->
  net wd = Served r :: rest ->
  xml r = None ->
  run (S fuel) cfg w
  = run fuel cfg
      (with_event
         (answered wd
            (Get getURL (listing_params (listing_prefix PERSISTENCE_SNAPSHOT_NAME) ""))
            rest)
         (Sleep 5)).
Proof.
  intros Hlock Hdirs Hnet Hxml.
  assert (Hlist :
    GetAllObjectsFromS3 cfg getURL PERSISTENCE_SNAPSHOT_NAME wd
    = (Raise ParseError,
       answered wd
         (Get getURL (listing_params (listing_prefix PERSISTENCE_SNAPSHOT_NAME) ""))
         rest)).
  { unfold GetAllObjectsFromS3. unfold bind at 1. cbn [list_loop].
    unfold bind at 1, requests_get. rewrite Hnet.
    unfold bind at 1, lift at 1. by rewrite Hxml. }
  assert (Hsnap :
    GetEntirePersistenceFromS3 cfg w1
    = (Raise ParseError,
       answered wd
         (Get getURL (listing_params (listing_prefix PERSISTENCE_SNAPSHOT_NAME) ""))
         rest)).
  { unfold GetEntirePersistenceFromS3. unfold bind at 1.
    unfold bind at 1 in Hdirs.
    destruct (CleanupDir _ w1) as [[[]| | | |] wc]; try discriminate.
    unfold bind at 1. rewrite Hdirs. unfold bind at 1. by rewrite Hlist. }
  cbn [run]. unfold run_pass, bind at 1. rewrite Hlock. cbn [Bool.eqb].
  unfold snapshot_then_delta, bind at 1. rewrite Hsnap.
  reflexivity.
Qed.

Lemma run_restarts_after_garbled_listing_witness :
  UploadLock snapshot_listing_garbled
  = (Ret false, snd (UploadLock snapshot_listing_garbled))
  /\ (CleanupDir (STORAGE_PATH cfg0 +:+ "/persistence") ;;;
      CreateAndChangeDir (STORAGE_PATH cfg0)) (snd (UploadLock snapshot_listing_garbled))
     = (Ret tt, snd (UploadLock snapshot_listing_garbled))
  /\ net (snd (UploadLock snapshot_listing_garbled))
     = Served (mkResponse 200 None None None []) :: []
  /\ xml (mkResponse 200 None None None []) = None
  /\ run 2 cfg0 snapshot_listing_garbled
     = run 1 cfg0
         (with_event
            (answered (snd (UploadLock snapshot_listing_garbled))
               (Get getURL
                  (listing_params (listing_prefix PERSISTENCE_SNAPSHOT_NAME) ""))
               [])
            (Sleep 5)).
Proof.
  split; [vm_compute; reflexivity|]. split; [vm_compute; reflexivity|].
  split; [reflexivity|]. split; [reflexivity|].
  apply (run_restarts_after_garbled_listing cfg0 1 snapshot_listing_garbled
           (snd (UploadLock snapshot_listing_garbled))
           (snd (UploadLock snapshot_listing_garbled))
           (mkResponse 200 None None None []) []);
    vm_compute; reflexivity.
Defined.

(** ** CleanupDir *)

Lemma startswith_length (p s : string) :
  Str.startswith p s = true -> (String.length p <= String.length s)%nat.
Proof.
  revert s. induction p as [|a p IH]; intros [|b s] H; cbn in *;
    [lia|lia|discriminate|].
  destruct (Ascii.eqb a b); [|discriminate]. apply IH in H. lia.
Qed.

Lemma not_under_itself (d : string) : Str.startswith (d +:+ "/") d = false.
Proof.
  destruct (Str.startswith (d +:+ "/") d) eqn:E; [|done].
  apply startswith_length in E. rewrite str_length_app in E. cbn in E. lia.
Qed.

Lemma lookup_without_tree (d : string) (fs : gmap string (list byte)) (p : string) :
  without_tree d fs !! p
  = if Str.startswith (d +:+ "/") p then None else fs !! p.
Proof.
  unfold without_tree. rewrite map_lookup_filter.
  destruct (fs !! p) as [x|]; cbn; [|by destruct (Str.startswith _ p)].
  destruct (Str.startswith (d +:+ "/") p) eqn:E.
  - by rewrite option_guard_False by (cbn; congruence).
  - by rewrite option_guard_True.
Qed.

Lemma path_exists_false (w : World) (path : string) :
  path_exists w path = false ->
  files w !! abspath w path = None
  /\ forall p x, files w !! p = Some x ->
                 Str.startswith (abspath w path +:+ "/") p = false.
Proof.
  unfold path_exists. destruct (files w !! abspath w path); [discriminate|].
  intros Hex. split; [done|]. intros p x Hp.
  destruct (Str.startswith _ p) eqn:E; [|done].
  assert (existsb (fun kv => Str.startswith (abspath w path +:+ "/") (fst kv))
            (map_to_list (files w)) = true); [|congruence].
  apply existsb_exists. exists (p, x). split; [|done].
  apply list_elem_of_In, elem_of_map_to_list, Hp.
Qed.

(** X16: unless [folderName] is a regular file, [CleanupDir] returns, whether
    the folder exists or not; afterwards nothing is left at or below the
    folder, and every file outside of it is as before. *)
Theorem CleanupDir_clears (folderName : string) (w : World) :
  files w !! abspath w folderName = None ->
  CleanupDir folderName w
  = (Ret tt, with_files w (without_tree (abspath w folderName) (files w)))
  /\ path_exists (with_files w (without_tree (abspath w folderName) (files w)))
       folderName = false
  /\ forall p,
       files (with_files w (without_tree (abspath w folderName) (files w))) !! p
       = if Str.startswith (abspath w folderName +:+ "/") p then None
         else files w !! p.
Proof.
  intros Hfile. set (d := abspath w folderName) in *.
  assert (Hrun : CleanupDir folderName w = (Ret tt, with_files w (without_tree d (files w)))).
  { unfold CleanupDir. destruct (path_exists w folderName) eqn:Hex.
    - unfold shutil_rmtree. fold d. by rewrite Hfile.
    - apply path_exists_false in Hex as [_ Hnone]. fold d in Hnone.
      unfold without_tree. rewrite map_filter_id; [by destruct w|].
      intros i x Hi. cbn. by apply (Hnone i x). }
  split_and!; [done| |intros p; apply lookup_without_tree].
  unfold path_exists. change (abspath (with_files w _) folderName) with d.
  cbn [files with_files].
  rewrite lookup_without_tree, not_under_itself, Hfile.
  destruct (existsb _ _) eqn:Hex; [|done].
  apply existsb_exists in Hex as ([p x] & Hin & Hsw). cbn in Hsw.
  apply list_elem_of_In, elem_of_map_to_list in Hin.
  rewrite lookup_without_tree, Hsw in Hin. discriminate.
Qed.

Lemma CleanupDir_clears_witness :
  files stale_snapshot !! abspath stale_snapshot "/srv/persistence" = None
  /\ (CleanupDir "/srv/persistence" stale_snapshot
      = (Ret tt,
         with_files stale_snapshot
           (without_tree (abspath stale_snapshot "/srv/persistence")
              (files stale_snapshot)))
      /\ path_exists
           (with_files stale_snapshot
              (without_tree (abspath stale_snapshot "/srv/persistence")
                 (files stale_snapshot)))
           "/srv/persistence" = false
      /\ forall p,
           files (with_files stale_snapshot
                    (without_tree (abspath stale_snapshot "/srv/persistence")
                       (files stale_snapshot))) !! p
           = if Str.startswith (abspath stale_snapshot "/srv/persistence" +:+ "/") p
             then None
             else files stale_snapshot !! p).
Proof.
  split; [vm_compute; reflexivity|].
  apply (CleanupDir_clears "/srv/persistence" stale_snapshot).
  vm_compute. reflexivity.
Defined.

(** The file beside the folder, whose name only starts like the
    folder's, survives the cleanup. *)
Example CleanupDir_keeps_sibling :
  files (snd (CleanupDir "/srv/persistence" stale_snapshot))
  = {[ "/srv/persistence.log" := bytes_of_string "abc" ]}.
Proof. vm_compute. reflexivity. Qed.

(** ** ExtractAllGzippedObjects on a directory without archives *)

Lemma startswith_app_drop (p s : string) :
  Str.startswith p s = true -> p +:+ Str.drop (String.length p) s = s.
Proof.
  revert s. induction p as [|a p IH]; intros [|b s] H; cbn in H;
    [reflexivity|reflexivity|discriminate|].
  destruct (Ascii.eqb_spec a b) as [->|]; [|discriminate].
  rewrite str_app_cons. cbn [String.length Str.drop]. by rewrite IH.
Qed.

Lemma name_in_Some (d path name : string) :
  name_in d path = Some name ->
  path = d +:+ "/" +:+ name /\ Str.startswith "/" name = false.
Proof.
  unfold name_in. destruct (Str.startswith (d +:+ "/") path) eqn:Hsw;
    [|discriminate].
  destruct (Str.contains "/" _) eqn:Hc; [discriminate|]. intros [= <-].
  split.
  - rewrite <- str_app_assoc. symmetry. by apply startswith_app_drop.
  - unfold Str.contains in Hc.
    destruct (Str.drop _ path) as [|c s]; [reflexivity|].
    cbn [Str.find] in Hc. by destruct (Str.startswith "/" (String c s)).
Qed.

Lemma name_in_abspath (w : World) (path name : string) :
  name_in (cwd w) path = Some name -> abspath w name = path.
Proof.
  intros H. apply name_in_Some in H as [-> Hrel]. unfold abspath.
  by rewrite Hrel.
Qed.

(** Removing, one after the other, files that are there and are no
    archives. *)
Lemma extract_each_plain_files :
  forall (paths : list string) (w : World),
    NoDup paths ->
    Forall (fun p => is_Some (files w !! p)
                     /\ exists name, name_in (cwd w) p = Some name
                                     /\ Str.endswith ".tar.gz" name = false) paths ->
    extract_each (omap (name_in (cwd w)) paths) w
    = (Ret tt, with_files w (foldr delete (files w) paths)).
Proof.
  induction paths as [|p paths IH]; intros w Hnd Hall.
  - cbn. by destruct w.
  - inversion Hnd as [|p' paths' Hnotin Hnd']; subst.
    inversion Hall as [|p' paths' [[x Hx] (name & Hname & Harch)] Hall']; subst.
    cbn [omap list_omap]. rewrite Hname. cbn [extract_each].
    rewrite Harch. unfold bind at 1.
    rewrite (name_in_abspath w p name Hname), Hx.
    unfold os_remove. rewrite (name_in_abspath w p name Hname), Hx.
    unfold set_files.
    change (omap (name_in (cwd w)) paths)
      with (omap (name_in (cwd (with_files w (delete p (files w))))) paths).
    rewrite IH; [|done|].
    + f_equal. unfold with_files. cbn. f_equal.
      clear. induction paths as [|q paths IH]; [done|].
      cbn [foldr]. rewrite IH. apply delete_delete.
    + apply Forall_forall. intros q Hq.
      rewrite Forall_forall in Hall'. destruct (Hall' q Hq) as [Hsome Hn].
      split; [|done]. cbn. rewrite lookup_delete_ne; [done|].
      intros ->. by apply Hnotin.
Qed.

Lemma lookup_foldr_delete (paths : list string) (fs : gmap string (list byte))
    (p : string) :
  foldr delete fs paths !! p = if decide (p ∈ paths) then None else fs !! p.
Proof.
  induction paths as [|q paths IH]; [done|]. cbn [foldr].
  destruct (decide (q = p)) as [->|Hne].
  - rewrite lookup_delete_eq. by rewrite decide_True by left.
  - rewrite lookup_delete_ne by done. rewrite IH.
    destruct (decide (p ∈ paths)) as [Hin|Hnin].
    + by rewrite decide_True by (by right).
    + rewrite decide_False; [done|]. intros [->|]%elem_of_cons; done.
Qed.

(** X17: when no file directly in the current directory ends in [.tar.gz], the
    function removes every regular file directly in the current directory
    and nothing else: files in directories below it and files elsewhere
    stay. *)
Theorem ExtractAllGzippedObjects_without_archives (w : World) :
  (forall name, In name (listdir_files w) -> Str.endswith ".tar.gz" name = false) ->
  exists fs,
    ExtractAllGzippedObjects w = (Ret tt, with_files w fs)
    /\ forall p,
         fs !! p = match name_in (cwd w) p with
                   | Some _ => None
                   | None => files w !! p
                   end.
Proof.
  intros Hno.
  set (paths := filter (fun p => is_Some (name_in (cwd w) p))
                  ((map_to_list (files w)).*1)).
  assert (Hnames : listdir_files w = omap (name_in (cwd w)) paths).
  { unfold listdir_files, paths. generalize (map_to_list (files w)).
    induction l as [|[k v] l IH]; [done|]. cbn [omap list_omap fmap list_fmap fst].
    rewrite filter_cons. destruct (name_in (cwd w) k) as [n|] eqn:E.
    - rewrite decide_True by (by eexists). cbn [omap list_omap]. rewrite E.
      f_equal. apply IH.
    - rewrite decide_False by (by intros [? ?]). apply IH. }
  exists (foldr delete (files w) paths). split.
  - unfold ExtractAllGzippedObjects. rewrite Hnames.
    apply extract_each_plain_files.
    + apply NoDup_filter, NoDup_fst_map_to_list.
    + apply Forall_forall. intros p [[n Hn] Hin]%list_elem_of_filter.
      apply list_elem_of_fmap in Hin as ([k v] & -> & Hkv).
      apply elem_of_map_to_list in Hkv. cbn [fst] in *.
      split; [by eexists|]. exists n. split; [done|].
      apply Hno. rewrite Hnames. apply list_elem_of_In, list_elem_of_omap.
      exists k. split; [|done]. apply list_elem_of_filter. split; [by eexists|].
      apply list_elem_of_fmap. exists (k, v). split; [done|].
      by apply elem_of_map_to_list.
  - intros p. rewrite lookup_foldr_delete.
    destruct (name_in (cwd w) p) as [n|] eqn:Hn.
    + destruct (decide (p ∈ paths)) as [|Hnin]; [done|].
      destruct (files w !! p) as [x|] eqn:Hx; [|done].
      exfalso. apply Hnin, list_elem_of_filter. split; [by eexists|].
      apply list_elem_of_fmap. exists (p, x). split; [done|].
      by apply elem_of_map_to_list.
    + destruct (decide (p ∈ paths)) as [[[n' Hn'] _]%list_elem_of_filter|];
        [congruence|done].
Qed.

Lemma ExtractAllGzippedObjects_without_archives_witness :
  (forall name, In name (listdir_files scratch_without_archives) ->
                Str.endswith ".tar.gz" name = false)
  /\ exists fs,
       ExtractAllGzippedObjects scratch_without_archives
       = (Ret tt, with_files scratch_without_archives fs)
       /\ forall p,
            fs !! p = match name_in (cwd scratch_without_archives) p with
                      | Some _ => None
                      | None => files scratch_without_archives !! p
                      end.
Proof.
  assert (Hl : listdir_files scratch_without_archives = ["a.txt"; "b.bin"])
    by (vm_compute; reflexivity).
  split.
  - intros name H. rewrite Hl in H. destruct H as [<-|[<-|[]]]; reflexivity.
  - apply (ExtractAllGzippedObjects_without_archives scratch_without_archives).
    intros name H. rewrite Hl in H. destruct H as [<-|[<-|[]]]; reflexivity.
Defined.

Example ExtractAllGzippedObjects_keeps_subdirectory :
  files (snd (ExtractAllGzippedObjects scratch_without_archives))
  = {[ "/srv/StateDeltaFromS3/sub/c.txt" := bytes_of_string "abc" ]}.
Proof. vm_compute. reflexivity. Qed.

(** ** The entry point *)

Lemma startswith_slash_app (a b : string) :
  Str.startswith "/" a = true -> Str.startswith "/" (a +:+ b) = true.
Proof. destruct a as [|c a]; [discriminate|]. by rewrite str_app_cons. Qed.

(** X18: the two filters are always switched together, and they are off only
    for exactly three arguments the last of which is the string [false];
    with a storage path given and an absolute script directory, the
    storage path is absolute, so that the directories the phases clean do
    not depend on the current directory. *)
Theorem main_config_settings (BASE_PATH : string) (argv : list string) :
  Str.startswith "/" BASE_PATH = true ->
  Exclude_txnBodies (main_config BASE_PATH argv)
  = Exclude_microBlocks (main_config BASE_PATH argv)
  /\ (Exclude_txnBodies (main_config BASE_PATH argv) = false
      <-> exists a0 a1, argv = [a0; a1; "false"])
  /\ Str.startswith "/" (STORAGE_PATH (main_config BASE_PATH argv)) = true
  /\ (forall w, abspath w (STORAGE_PATH (main_config BASE_PATH argv) +:+ "/persistence")
                = STORAGE_PATH (main_config BASE_PATH argv) +:+ "/persistence").
Proof.
  intros Habs.
  assert (Hpath : Str.startswith "/" (STORAGE_PATH (main_config BASE_PATH argv)) = true).
  { unfold main_config.
    assert (Hsp : Str.startswith "/"
                    (if os_path_isabs (nth 1 argv "") then nth 1 argv ""
                     else os_path_join BASE_PATH (nth 1 argv "")) = true).
    { unfold os_path_isabs, os_path_join.
      destruct (Str.startswith "/" (nth 1 argv "")) eqn:E; [done|].
      destruct (_ || _); by apply startswith_slash_app. }
    destruct (2 <=? length argv)%nat; [|done].
    by destruct (_ && _). }
  split_and!; [| |done|].
  - unfold main_config. destruct (2 <=? length argv)%nat; [|done].
    by destruct (_ && _).
  - unfold main_config. split.
    + destruct argv as [|a0 [|a1 [|a2 [|a3 argv]]]]; cbn; try done.
      destruct (String.eqb_spec a2 "false") as [->|]; [|done].
      intros _. by exists a0, a1.
    + intros (a0 & a1 & ->). reflexivity.
  - intros w. unfold abspath.
    by rewrite (startswith_slash_app _ "/persistence" Hpath).
Qed.

Lemma main_config_settings_witness :
  Str.startswith "/" "/opt/zilliqa" = true
  /\ (Exclude_txnBodies (main_config "/opt/zilliqa" ["download_incr_DB.py"; "data"; "false"])
      = Exclude_microBlocks
          (main_config "/opt/zilliqa" ["download_incr_DB.py"; "data"; "false"])
      /\ (Exclude_txnBodies
            (main_config "/opt/zilliqa" ["download_incr_DB.py"; "data"; "false"])
          = false
          <-> exists a0 a1,
                ["download_incr_DB.py"; "data"; "false"] = [a0; a1; "false"])
      /\ Str.startswith "/"
           (STORAGE_PATH
              (main_config "/opt/zilliqa" ["download_incr_DB.py"; "data"; "false"]))
         = true
      /\ (forall w,
            abspath w
              (STORAGE_PATH
                 (main_config "/opt/zilliqa" ["download_incr_DB.py"; "data"; "false"])
               +:+ "/persistence")
            = STORAGE_PATH
                (main_config "/opt/zilliqa" ["download_incr_DB.py"; "data"; "false"])
              +:+ "/persistence")).
Proof.
  split; [reflexivity|].
  apply (main_config_settings "/opt/zilliqa" ["download_incr_DB.py"; "data"; "false"]).
  reflexivity.
Defined.

Example main_config_relative_path :
  main_config "/opt/zilliqa" ["download_incr_DB.py"; "data"]
  = mkConfig true true "/opt/zilliqa/data".
Proof. reflexivity. Qed.

Example main_config_four_arguments :
  main_config "/opt/zilliqa" ["download_incr_DB.py"; "/data"; "false"; "x"]
  = mkConfig true true "/data".
Proof. reflexivity. Qed.
